(** * ZKFingerprint: the template lifecycle of [main.py]

  A shallow embedding of the [FingerprintScanner] class of [main.py]:
  the base64 codec it stores templates with, the [fingerprints] table
  behind [db_cursor], the scanner's volatile index behind [zkfp2], and
  the registration, identification and connection handlers, followed by
  the properties of the template lifecycle.

  Layout:
  - [Base64]: [base64.b64encode] / [base64.b64decode] as the handlers
    call them;
  - [Store]: the [fingerprints] table and the three statements run on it;
  - [Scanner]: the application state, the handler monad and the methods
    of [FingerprintScanner];
  - [Demo]: concrete scanners, stores and sessions;
  - [Session]: start-up, the tiles of the main page and sequences of
    clicks;
  - [Base64Facts], [StoreFacts], [AllocatorFacts], [ScannerFacts]: the
    lemmas about each part;
  - the properties of the lifecycle, one block per property, then
    further properties of the codec, the handlers and whole sessions.

  What is left out: the flet page (texts, views, theme), the PIL images
  and the logger.  Their calls are taken to return and leave no mark on
  the state, except [show_dialog], which is recorded because it is how a
  handler reports its result; in particular [Image.frombytes] (lines
  300, 327 and 394) is taken to accept the image the scanner
  delivered.  The SELECT statements are taken to be answered (the table
  exists and the file can be read); what they answer, and whether a
  value they return can be read, depends on the table and is modelled,
  and so is a write that fails, in [execute] or in [commit()]. *)

From Stdlib Require Import ZArith NArith List Lia Bool Sorted.
From Stdlib.Strings Require Import String Ascii Byte.
Import ListNotations.

(** ** Python values shared by the modules *)

(** Python's [bytes]. *)
Definition bytes := list byte.

(** The exceptions that can leave a handler.  The [sqlite3.DatabaseError]
  of a write is not listed: [save_fingerprint_to_db] catches it.
  [OperationalError] is the [sqlite3.OperationalError] of a fetch that
  meets a TEXT value it cannot decode. *)
Inductive exn : Type :=
| TypeError
| ValueError
| BinasciiError
| OverflowError
| OperationalError.

(** What evaluating a Python expression yields. *)
Inductive result (A : Type) : Type :=
| Ok (a : A)
| Raise (e : exn).
Arguments Ok {A} a.
Arguments Raise {A} e.

(** A value of the [fingerprint_template] column: [None] for NULL, [str]
  for TEXT, [bytes] for BLOB.  [SqlBadText] is a TEXT value whose bytes
  are not valid UTF-8: it can sit in the file but no fetch returns it,
  [sqlite3] raises [OperationalError] instead. *)
Inductive sql_value : Type :=
| SqlNull
| SqlText (s : string)
| SqlBlob (b : bytes)
| SqlBadText (b : bytes).

(** ** Checking a boolean property on an initial segment of [N] *)

Definition N_range (n : nat) : list N := map N.of_nat (seq 0 n).

Definition forall_below (n : nat) (f : N -> bool) : bool :=
  forallb f (N_range n).

Definition forall_below2 (n m : nat) (f : N -> N -> bool) : bool :=
  forall_below n (fun x => forall_below m (f x)).

(** ** The template codec: [base64.b64encode] and [base64.b64decode] *)

Module Base64.

Local Open Scope N_scope.

Definition table_b2a_base64 : bytes :=
  list_byte_of_string
    "ABCDEFGHIJKLMNOPQRSTUVWXYZabcdefghijklmnopqrstuvwxyz0123456789+/".

Definition BASE64_PAD : byte := "="%byte.

(** [table_b2a_base64[n]]. *)
Definition b2a (n : N) : byte := nth (N.to_nat n) table_b2a_base64 BASE64_PAD.

(** Storing an integer into an [unsigned char]. *)
Definition uchar (n : N) : byte :=
  match Byte.of_N (n mod 256) with
  | Some b => b
  | None => "000"%byte
  end.

(** The four sextets of a three-byte group (RFC 4648, section 4). *)
Definition sextet0 (a : N) : N := N.shiftr a 2.
Definition sextet1 (a b : N) : N :=
  N.lor (N.shiftl (N.land a 3) 4) (N.shiftr b 4).
Definition sextet2 (b c : N) : N :=
  N.lor (N.shiftl (N.land b 15) 2) (N.shiftr c 6).
Definition sextet3 (c : N) : N := N.land c 63.

(** [binascii.b2a_base64(data, newline=False)], which is what
    [base64.b64encode(data)] returns: every three bytes give four
    alphabet characters, a final group of one or two bytes is padded
    with [=]. *)
Fixpoint b64encode (data : bytes) : bytes :=
  match data with
  | [] => []
  | [x] =>
      let a := Byte.to_N x in
      [b2a (sextet0 a); b2a (sextet1 a 0); BASE64_PAD; BASE64_PAD]
  | [x; y] =>
      let a := Byte.to_N x in
      let b := Byte.to_N y in
      [b2a (sextet0 a); b2a (sextet1 a b); b2a (sextet2 b 0); BASE64_PAD]
  | x :: y :: z :: rest =>
      let a := Byte.to_N x in
      let b := Byte.to_N y in
      let c := Byte.to_N z in
      b2a (sextet0 a) :: b2a (sextet1 a b) :: b2a (sextet2 b c)
        :: b2a (sextet3 c) :: b64encode rest
  end.

(** Position of [c] in [tbl] counted from [i]; 255 when absent, the
    [unsigned char] that [-1] becomes in [table_a2b_base64]. *)
Fixpoint index_from (i : N) (c : byte) (tbl : bytes) : N :=
  match tbl with
  | [] => 255
  | x :: tbl' => if Byte.eqb c x then i else index_from (i + 1) c tbl'
  end.

Definition table_a2b_base64 (c : byte) : N := index_from 0 c table_b2a_base64.

(** How the scanning loop of [binascii.a2b_base64] is left: by the
    [goto done] of a complete pad sequence, or at the end of the input
    with the current [quad_pos]. *)
Inductive a2b_scan : Type :=
| ScanDone (bin_data : bytes)
| ScanEnd (quad_pos : N) (bin_data : bytes).

(** The loop of [binascii.a2b_base64] with [strict_mode] off, as
    [b64decode(s)] runs it ([validate=False]): characters outside the
    alphabet are skipped, pads count only once two data characters of
    the quad were read. *)
Fixpoint a2b_loop (ascii_data : bytes) (quad_pos leftchar pads : N)
         (bin_data : bytes) : a2b_scan :=
  match ascii_data with
  | [] => ScanEnd quad_pos bin_data
  | this_ch :: rest =>
      if Byte.eqb this_ch BASE64_PAD then
        if 2 <=? quad_pos then
          if 4 <=? quad_pos + (pads + 1) then ScanDone bin_data
          else a2b_loop rest quad_pos leftchar (pads + 1) bin_data
        else a2b_loop rest quad_pos leftchar pads bin_data
      else
        let v := table_a2b_base64 this_ch in
        if 64 <=? v then a2b_loop rest quad_pos leftchar pads bin_data
        else
          match quad_pos with
          | 0 => a2b_loop rest 1 v 0 bin_data
          | 1 =>
              a2b_loop rest 2 (N.land v 15) 0
                (bin_data ++ [uchar (N.lor (N.shiftl leftchar 2) (N.shiftr v 4))])
          | 2 =>
              a2b_loop rest 3 (N.land v 3) 0
                (bin_data ++ [uchar (N.lor (N.shiftl leftchar 4) (N.shiftr v 2))])
          | _ =>
              a2b_loop rest 0 0 0
                (bin_data ++ [uchar (N.lor (N.shiftl leftchar 6) v)])
          end
  end.

(** After the loop: a quad left open is [binascii.Error] ("Incorrect
    padding", or one data character too many). *)
Definition a2b_finish (r : a2b_scan) : result bytes :=
  match r with
  | ScanDone bin_data => Ok bin_data
  | ScanEnd quad_pos bin_data =>
      if quad_pos =? 0 then Ok bin_data else Raise BinasciiError
  end.

Definition a2b_base64 (data : bytes) : result bytes :=
  a2b_finish (a2b_loop data 0 0 0 []).

Definition is_ascii (c : byte) : bool := Byte.to_N c <? 128.

(** [base64.b64decode(s)]: [_bytes_from_decode_data] turns a [str] into
    bytes with [s.encode('ascii')] (a failure becomes [ValueError]),
    passes [bytes] through and rejects [None] with [TypeError]; then
    [binascii.a2b_base64].  A [SqlBadText] never gets here, the fetch
    before it raises; the clause gives that exception. *)
Definition b64decode (s : sql_value) : result bytes :=
  match s with
  | SqlNull => Raise TypeError
  | SqlText s =>
      let data := list_byte_of_string s in
      if forallb is_ascii data then a2b_base64 data else Raise ValueError
  | SqlBlob data => a2b_base64 data
  | SqlBadText _ => Raise OperationalError
  end.

(** [b.decode('utf-8')] on the output of [b64encode]: the alphabet is
    ASCII (lemma [b64encode_is_ascii] below), where UTF-8 decoding keeps
    every byte as the code point of the same value. *)
Definition decode_utf8 (b : bytes) : string := string_of_list_byte b.

(** *** Checks run once over the tables and over all pairs of byte values *)

Definition b2a_entry_ok (x : N) : bool :=
  negb (Byte.eqb (b2a x) BASE64_PAD)
  && (table_a2b_base64 (b2a x) =? x)
  && is_ascii (b2a x).

(** For byte values [a], [b]: the sextets are below 64, and the shifts of
    [a2b_loop] put back what those of [b64encode] took apart.  The last
    two conjuncts read [a], [b] as the second and third byte of a group. *)
Definition pair_ok (a b : N) : bool :=
  (sextet0 a <? 64) && (sextet1 a b <? 64) && (sextet2 a b <? 64)
  && (sextet3 a <? 64)
  && (N.lor (N.shiftl (sextet0 a) 2) (N.shiftr (sextet1 a b) 4) =? a)
  && (N.land (sextet1 a b) 15 =? N.shiftr b 4)
  && (N.lor (N.shiftl (N.shiftr a 4) 4) (N.shiftr (sextet2 a b) 2) =? a)
  && (N.lor (N.shiftl (N.land (sextet2 a b) 3) 6) (sextet3 b) =? b).

End Base64.

(** ** The durable store: the [fingerprints] table of [fingerprints.db] *)

Module Store.

Local Open Scope Z_scope.

(** One row of
    [fingerprints (user_id INTEGER PRIMARY KEY, fingerprint_template TEXT,
    last_updated TIMESTAMP)]. *)
Record Row : Type := mkRow {
  user_id : Z;
  fingerprint_template : sql_value;
  last_updated : string
}.

(** The table as the program's connection sees it, rows of a transaction
    that is still open included, in the order [fetchall] returns them.
    Every insert of the program carries a [user_id] above all stored
    ones, so insertion order and key order agree. *)
Definition table : Type := list Row.

Definition user_ids (t : table) : list Z := map user_id t.

(** [SELECT MAX(user_id) FROM fingerprints], first column of [fetchone()]:
    [None] on an empty table. *)
Definition select_max_user_id (t : table) : option Z :=
  fold_left
    (fun acc r =>
       match acc with
       | None => Some (user_id r)
       | Some m => Some (Z.max m (user_id r))
       end)
    t None.

(** [SELECT * FROM fingerprints WHERE user_id = ?] followed by
    [fetchone()]. *)
Definition select_by_user_id (uid : Z) (t : table) : option Row :=
  find (fun r => user_id r =? uid) t.

(** [sqlite3] binds a Python [int] as a signed 64-bit integer and raises
    [OverflowError] for one outside that range. *)
Definition fits_int64 (n : Z) : bool := (- 2 ^ 63 <=? n) && (n <? 2 ^ 63).

Inductive insert_status : Type :=
| Inserted
| DatabaseError
| IntTooLarge.

(** Whether a fetch can return the value. *)
Definition fetchable (v : sql_value) : bool :=
  match v with
  | SqlBadText _ => false
  | _ => true
  end.

(** [execute('INSERT INTO fingerprints (user_id, fingerprint_template,
    last_updated) VALUES (?, ?, ?)', ...)] followed by [commit()].
    [writable] is the environment's answer for the whole write;
    when it is false, [at_commit] says where the write fails: in
    [execute] (a read-only or full file, a lock on the first write), which
    leaves the table as it was, or in [commit()] (a lock held by a
    reader), which leaves the executed row in the open transaction, where
    the connection sees it.  A repeated primary key is the
    [sqlite3.IntegrityError] of [execute].  All three are
    [sqlite3.DatabaseError]s. *)
Definition insert (writable at_commit : bool) (r : Row) (t : table)
  : insert_status * table :=
  if negb (fits_int64 (user_id r)) then (IntTooLarge, t)
  else if negb writable && negb at_commit then (DatabaseError, t)
  else if existsb (fun r' => user_id r' =? user_id r) t then (DatabaseError, t)
  else if writable then (Inserted, t ++ [r])
  else (DatabaseError, t ++ [r]).

(** [m] is the greatest element of [l]: the spec's "max(existing userId)". *)
Definition is_max (m : Z) (l : list Z) : Prop :=
  In m l /\ forall x, In x l -> x <= m.

End Store.

(** ** The application: [FingerprintScanner] *)

Module Scanner.

Local Open Scope Z_scope.

(** What [AcquireFingerprint()] returns when a finger was read:
    [(tmp, img)]. *)
Definition Capture : Type := (bytes * bytes)%type.

(** The scanner's volatile index: the [(fid, template)] pairs given to
    [DBAdd] since the last [DBClear], oldest first. *)
Definition Index : Type := list (Z * bytes).

(** The matching and merging of the vendor SDK ([pyzkfp.ZKFP2]), which the
    program only calls: [DBIdentify(tmp)] answers [(fid, score)] from the
    index, [DBMerge( *templates)] answers [(regTemp, regTempLen)] with
    [regTemp] possibly [None]. *)
Record ZKFP2 : Type := mkZKFP2 {
  DBIdentify : Index -> bytes -> Z * Z;
  DBMerge : list bytes -> option bytes * Z
}.

(** The calls of [show_dialog] in the handlers. *)
Inductive Dialog : Type :=
| DlgConnectionSuccess
| DlgConnectionError
| DlgFingerprintExists (fid : Z)
| DlgRegistrationSuccess (uid : Z)
| DlgMergeError
| DlgUserIdentified (fid score : Z)
| DlgUserFoundInDatabase (uid : Z)
| DlgIdentificationFailed.

Definition dialog_title (d : Dialog) : string :=
  match d with
  | DlgConnectionSuccess => "Connection Success"
  | DlgConnectionError => "Connection Error"
  | DlgFingerprintExists _ => "Fingerprint Exists"
  | DlgRegistrationSuccess _ => "Registration Success"
  | DlgMergeError => "Error"
  | DlgUserIdentified _ _ => "User Identified"
  | DlgUserFoundInDatabase _ => "User Found in Database"
  | DlgIdentificationFailed => "Identification Failed"
  end.

(** The calls a handler makes on the scanner, the store and the dialog,
    recorded in the order they are made: the five calls that open the
    device ([ZKFP2()], [Init()], [GetDeviceCount()], [OpenDevice(0)],
    [Light("green")]), the calls on captures and on the index, the
    [INSERT] with how it ended, and [show_dialog].  A call that raises is
    not recorded, except the [INSERT], whose status says so. *)
Inductive Event : Type :=
| EvAcquire (capture : option Capture)
| EvIdentify (tmp : bytes) (fid score : Z)
| EvMerge (templates : list bytes) (regTemp : option bytes)
| EvDBAdd (uid : Z) (template : bytes)
| EvDBClear
| EvInsert (uid : Z) (data : sql_value) (st : Store.insert_status)
| EvDialog (d : Dialog)
| EvNewZKFP2
| EvInit
| EvGetDeviceCount
| EvOpenDevice
| EvLight.

(** The call of [initialize_zkfp2] that raises when the initialisation
    fails. *)
Inductive InitStage : Type :=
| AtZKFP2
| AtInit
| AtGetDeviceCount
| AtOpenDevice
| AtLight
| AtDBClear.

(** The state a handler runs in: the table behind [db_cursor], the index
    of the object behind [zkfp2], the flag [is_connected], what the
    environment will answer ([db_writable], [now], [device_ready], and
    [polls]: the results of the coming calls of [AcquireFingerprint()]),
    the calls made so far, and where the environment's failures strike:
    [fails_at_commit] for a write that fails ([db_writable] false),
    [init_fault] for an initialisation that fails ([device_ready]
    false). *)
Record FingerprintScanner : Type := mkScanner {
  fingerprints : Store.table;
  db_writable : bool;
  now : string;
  device_ready : bool;
  zk_index : Index;
  polls : list (option Capture);
  is_connected : bool;
  trace : list Event;
  fails_at_commit : bool;
  init_fault : InitStage
}.

Definition log (e : Event) (s : FingerprintScanner) : FingerprintScanner :=
  mkScanner (fingerprints s) (db_writable s) (now s) (device_ready s)
    (zk_index s) (polls s) (is_connected s) (trace s ++ [e])
    (fails_at_commit s) (init_fault s).

Definition log_all (evs : list Event) (s : FingerprintScanner)
  : FingerprintScanner :=
  mkScanner (fingerprints s) (db_writable s) (now s) (device_ready s)
    (zk_index s) (polls s) (is_connected s) (trace s ++ evs)
    (fails_at_commit s) (init_fault s).

Definition with_polls (ps : list (option Capture)) (s : FingerprintScanner)
  : FingerprintScanner :=
  mkScanner (fingerprints s) (db_writable s) (now s) (device_ready s)
    (zk_index s) ps (is_connected s) (trace s)
    (fails_at_commit s) (init_fault s).

Definition with_index (ix : Index) (s : FingerprintScanner)
  : FingerprintScanner :=
  mkScanner (fingerprints s) (db_writable s) (now s) (device_ready s)
    ix (polls s) (is_connected s) (trace s)
    (fails_at_commit s) (init_fault s).

Definition with_fingerprints (t : Store.table) (s : FingerprintScanner)
  : FingerprintScanner :=
  mkScanner t (db_writable s) (now s) (device_ready s)
    (zk_index s) (polls s) (is_connected s) (trace s)
    (fails_at_commit s) (init_fault s).

Definition with_connected (b : bool) (s : FingerprintScanner)
  : FingerprintScanner :=
  mkScanner (fingerprints s) (db_writable s) (now s) (device_ready s)
    (zk_index s) (polls s) b (trace s)
    (fails_at_commit s) (init_fault s).

(** How a call ends: it returns, an exception leaves it, or it is still
    in a [while True] polling loop when the recorded polls are used up. *)
Inductive outcome (A : Type) : Type :=
| Returned (a : A)
| Raised (e : exn)
| Polling.
Arguments Returned {A} a.
Arguments Raised {A} e.
Arguments Polling {A}.

Definition M (A : Type) : Type :=
  FingerprintScanner -> outcome A * FingerprintScanner.

Definition ret {A : Type} (a : A) : M A := fun s => (Returned a, s).

Definition raise {A : Type} (e : exn) : M A := fun s => (Raised e, s).

Definition bind {A B : Type} (m : M A) (k : A -> M B) : M B :=
  fun s =>
    match m s with
    | (Returned a, s') => k a s'
    | (Raised e, s') => (Raised e, s')
    | (Polling, s') => (Polling, s')
    end.

Definition lift {A : Type} (r : result A) : M A :=
  match r with
  | Ok a => ret a
  | Raise e => raise e
  end.

Definition emit (e : Event) : M unit := fun s => (Returned tt, log e s).

Declare Scope handler_scope.
Delimit Scope handler_scope with handler.
Notation "x <- m ;; k" := (bind m (fun x => k))
  (at level 61, m at next level, right associativity) : handler_scope.
Notation "m ;; k" := (bind m (fun _ => k))
  (at level 61, right associativity) : handler_scope.
Local Open Scope handler_scope.

(** Python's truth value of [regTemp]: [None] and an empty array are
    false. *)
Definition truthy (regTemp : option bytes) : bool :=
  match regTemp with
  | Some (_ :: _) => true
  | _ => false
  end.

(** [bytes(regTemp)]: [TypeError] on [None]. *)
Definition py_bytes (regTemp : option bytes) : M bytes :=
  match regTemp with
  | Some b => ret b
  | None => raise TypeError
  end.

Definition show_dialog (d : Dialog) : M unit := emit (EvDialog d).

(** [result + 1 if result else 1]: [None] and [0] are false. *)
Definition next_after (result : option Z) : Z :=
  match result with
  | None => 1
  | Some r => if r =? 0 then 1 else r + 1
  end.

(** Lines 86-89; the [SELECT MAX] is answered (see the head of the
    file). *)
Definition get_next_user_id : M Z :=
  fun s => (Returned (next_after (Store.select_max_user_id (fingerprints s))), s).

(** [CREATE TABLE IF NOT EXISTS] and [commit()], taken to succeed:
    nothing to do on a table that exists; a new database file is the
    empty table.  The rows the connection sees are the same before and
    after the [commit()]. *)
Definition setup_database : M unit := ret tt.

(** [try: execute(INSERT ...); commit() / except sqlite3.DatabaseError:
    log].  The [except] does not roll back: after a [commit()] that
    raised, the executed row stays in the table the connection sees.
    The [OverflowError] of binding an id that does not fit is not a
    [DatabaseError] and leaves the method. *)
Definition save_fingerprint_to_db (user_id : Z) (fingerprint_template : sql_value)
  : M unit :=
  fun s =>
    let row := Store.mkRow user_id fingerprint_template (now s) in
    match Store.insert (db_writable s) (fails_at_commit s) row
            (fingerprints s) with
    | (Store.Inserted, t) =>
        (Returned tt,
         log (EvInsert user_id fingerprint_template Store.Inserted)
           (with_fingerprints t s))
    | (Store.DatabaseError, t) =>
        (Returned tt,
         log (EvInsert user_id fingerprint_template Store.DatabaseError)
           (with_fingerprints t s))
    | (Store.IntTooLarge, _) =>
        (Raised OverflowError,
         log (EvInsert user_id fingerprint_template Store.IntTooLarge) s)
    end.

(** The [SELECT * ... WHERE user_id = ?] of [start_identification] and its
    [fetchone()], which raises on a row whose template cannot be read. *)
Definition fetch_by_user_id (user_id : Z) : M (option Store.Row) :=
  fun s =>
    if Store.fits_int64 user_id
    then
      match Store.select_by_user_id user_id (fingerprints s) with
      | Some row =>
          if Store.fetchable (Store.fingerprint_template row)
          then (Returned (Some row), s)
          else (Raised OperationalError, s)
      | None => (Returned None, s)
      end
    else (Raised OverflowError, s).

(** [self.zkfp2.DBAdd(user_id, template)]. *)
Definition DBAdd (user_id : Z) (template : bytes) : M unit :=
  fun s =>
    (Returned tt,
     log (EvDBAdd user_id template)
       (with_index (zk_index s ++ [(user_id, template)]) s)).

Definition add_fingerprint_to_zkfp (user_id : Z) (fingerprint_template : bytes)
  : M unit :=
  DBAdd user_id fingerprint_template.

(** [self.zkfp2.DBClear()]. *)
Definition DBClear : M unit :=
  fun s => (Returned tt, log EvDBClear (with_index [] s)).

(** The loop [while True: capture = AcquireFingerprint(); if capture: ...;
    break] up to the point where a capture is in hand. *)
Fixpoint acquire_from (ps : list (option Capture)) (s : FingerprintScanner)
  : outcome Capture * FingerprintScanner :=
  match ps with
  | [] => (Polling, with_polls [] s)
  | None :: ps' => acquire_from ps' (log (EvAcquire None) s)
  | Some capture :: ps' =>
      (Returned capture, with_polls ps' (log (EvAcquire (Some capture)) s))
  end.

Definition acquire_loop : M Capture := fun s => acquire_from (polls s) s.

(** The body of [for row in rows] in [load_fingerprints_from_db]. *)
Fixpoint load_rows (rows : list Store.Row) : M unit :=
  match rows with
  | [] => ret tt
  | row :: rows' =>
      fingerprint_template <-
        lift (Base64.b64decode (Store.fingerprint_template row)) ;;
      add_fingerprint_to_zkfp (Store.user_id row) fingerprint_template ;;
      load_rows rows'
  end.

(** [rows = fetchall()] reads every row before the loop starts, and
    raises when one of them holds a template it cannot read; then the
    loop. *)
Definition load_fingerprints_from_db : M unit :=
  fun s =>
    if forallb (fun row => Store.fetchable (Store.fingerprint_template row))
         (fingerprints s)
    then load_rows (fingerprints s) s
    else (Raised OperationalError, s).

(** The calls of [initialize_zkfp2] before [DBClear()]. *)
Definition opening_calls : list Event :=
  [EvNewZKFP2; EvInit; EvGetDeviceCount; EvOpenDevice; EvLight].

(** Those of them that returned when the call of the stage raises. *)
Definition calls_before (stage : InitStage) : list Event :=
  match stage with
  | AtZKFP2 => []
  | AtInit => [EvNewZKFP2]
  | AtGetDeviceCount => [EvNewZKFP2; EvInit]
  | AtOpenDevice => [EvNewZKFP2; EvInit; EvGetDeviceCount]
  | AtLight => [EvNewZKFP2; EvInit; EvGetDeviceCount; EvOpenDevice]
  | AtDBClear => opening_calls
  end.

(** [try: self.zkfp2 = ZKFP2(); Init(); GetDeviceCount(); OpenDevice(0);
    Light("green"); DBClear(); is_connected = True; return True / except:
    return False].  [device_ready] says whether all the calls return;
    when not, [init_fault] names the one that raises.  Once [ZKFP2()]
    returned, [self.zkfp2] is a new object, to which no template was
    added yet; [is_connected] is not reset on a failure. *)
Definition initialize_zkfp2 : M bool :=
  fun s =>
    if device_ready s
    then
      (DBClear ;; (fun s' => (Returned true, with_connected true s')))
        (log_all opening_calls (with_index [] s))
    else
      (Returned false,
       match init_fault s with
       | AtZKFP2 => s
       | stage => log_all (calls_before stage) (with_index [] s)
       end).

Definition connect_to_device : M unit :=
  connected <- initialize_zkfp2 ;;
  if (connected : bool) then
    show_dialog DlgConnectionSuccess ;;
    setup_database ;;
    load_fingerprints_from_db
  else show_dialog DlgConnectionError.

Section Handlers.

Variable zkfp2 : ZKFP2.

(** [fid, score = self.zkfp2.DBIdentify(tmp)]. *)
Definition identify (tmp : bytes) : M (Z * Z) :=
  fun s =>
    let r := DBIdentify zkfp2 (zk_index s) tmp in
    (Returned r, log (EvIdentify tmp (fst r) (snd r)) s).

(** [regTemp, regTempLen = self.zkfp2.DBMerge( *templates)]. *)
Definition merge (templates : list bytes) : M (option bytes) :=
  fun s =>
    let regTemp := fst (DBMerge zkfp2 templates) in
    (Returned regTemp, log (EvMerge templates regTemp) s).

(** The [for i in range(3)] of [capture_fingerprints], [n] rounds left. *)
Fixpoint capture_rounds (n : nat) (templates : list bytes)
  : M (list bytes) :=
  match n with
  | O => ret templates
  | S n' =>
      capture <- acquire_loop ;;
      capture_rounds n' (templates ++ [fst capture])
  end.

Definition capture_fingerprints : M (option bytes) :=
  templates <- capture_rounds 3 [] ;;
  regTemp <- merge templates ;;
  if truthy regTemp then ret regTemp else ret None.

Definition register_new_fingerprint : M unit :=
  user_id <- get_next_user_id ;;
  regTemp <- capture_fingerprints ;;
  regTemp_bytes <- py_bytes regTemp ;;
  let base64_encoded_data := Base64.b64encode regTemp_bytes in
  match regTemp with
  | None => ret tt
  | Some regTemp =>
      DBAdd user_id regTemp ;;
      save_fingerprint_to_db user_id (SqlBlob base64_encoded_data)
  end.

(** The [for i in range(3)] of [start_register], [n] rounds left; [None]
    is the [return] of the duplicate branch. *)
Fixpoint register_rounds (n : nat) (templates : list bytes)
  : M (option (list bytes)) :=
  match n with
  | O => ret (Some templates)
  | S n' =>
      capture <- acquire_loop ;;
      r <- identify (fst capture) ;;
      if negb (fst r =? 0) then
        show_dialog (DlgFingerprintExists (fst r)) ;;
        ret None
      else register_rounds n' (templates ++ [fst capture])
  end.

Definition start_register : M unit :=
  rounds <- register_rounds 3 [] ;;
  match rounds with
  | None => ret tt
  | Some templates =>
      regTemp <- merge templates ;;
      if truthy regTemp then
        user_id <- get_next_user_id ;;
        regTemp_bytes <- py_bytes regTemp ;;
        let base64_encoded_data :=
          Base64.decode_utf8 (Base64.b64encode regTemp_bytes) in
        DBAdd user_id regTemp_bytes ;;
        save_fingerprint_to_db user_id (SqlText base64_encoded_data) ;;
        show_dialog (DlgRegistrationSuccess user_id)
      else show_dialog DlgMergeError
  end.

Definition start_identification : M unit :=
  capture <- acquire_loop ;;
  r <- identify (fst capture) ;;
  if negb (fst r =? 0) then show_dialog (DlgUserIdentified (fst r) (snd r))
  else
    user_id <- get_next_user_id ;;
    row <- fetch_by_user_id user_id ;;
    match row with
    | Some row =>
        decoded_template <-
          lift (Base64.b64decode (Store.fingerprint_template row)) ;;
        DBAdd user_id decoded_template ;;
        show_dialog (DlgUserFoundInDatabase user_id)
    | None => show_dialog DlgIdentificationFailed
    end.

End Handlers.

(** *** Reading traces and states *)

(** The calls of a capture round that goes on: a poll, or an
    identification that found nobody. *)
Definition quiet (e : Event) : bool :=
  match e with
  | EvAcquire _ => true
  | EvIdentify _ fid _ => fid =? 0
  | _ => false
  end.

Definition is_acquire (e : Event) : bool :=
  match e with
  | EvAcquire _ => true
  | _ => false
  end.

(** A call of [DBMerge], of [DBAdd] or of the store's [INSERT]. *)
Definition merges_or_writes (e : Event) : bool :=
  match e with
  | EvMerge _ _ | EvDBAdd _ _ | EvInsert _ _ _ => true
  | _ => false
  end.

(** The commit ordering the spec asks of a trace: every [DBAdd] of an id
    comes after an [INSERT] of that id that succeeded ([inserted]: the ids
    inserted so far). *)
Fixpoint insert_precedes_add (inserted : list Z) (tr : list Event) : bool :=
  match tr with
  | [] => true
  | EvInsert uid _ Store.Inserted :: tr' =>
      insert_precedes_add (uid :: inserted) tr'
  | EvDBAdd uid _ :: tr' =>
      existsb (Z.eqb uid) inserted && insert_precedes_add inserted tr'
  | _ :: tr' => insert_precedes_add inserted tr'
  end.

(** The two states agree on the store, the index and the environment's
    answers other than the polls. *)
Definition same_world (s s' : FingerprintScanner) : Prop :=
  fingerprints s' = fingerprints s
  /\ zk_index s' = zk_index s
  /\ db_writable s' = db_writable s
  /\ now s' = now s
  /\ fails_at_commit s' = fails_at_commit s.

Definition decodable (row : Store.Row) : bool :=
  match Base64.b64decode (Store.fingerprint_template row) with
  | Ok _ => true
  | Raise _ => false
  end.

(** The index entries the rows decode to, rows that do not decode left
    out. *)
Fixpoint decoded_entries (rows : list Store.Row) : Index :=
  match rows with
  | [] => []
  | row :: rows' =>
      match Base64.b64decode (Store.fingerprint_template row) with
      | Ok t => (Store.user_id row, t) :: decoded_entries rows'
      | Raise _ => decoded_entries rows'
      end
  end.

Definition add_events (entries : Index) : list Event :=
  map (fun e => EvDBAdd (fst e) (snd e)) entries.

(** The state after [DBAdd] was called on each of [entries] in turn. *)
Definition added (entries : Index) (s : FingerprintScanner)
  : FingerprintScanner :=
  mkScanner (fingerprints s) (db_writable s) (now s) (device_ready s)
    (zk_index s ++ entries) (polls s) (is_connected s)
    (trace s ++ add_events entries) (fails_at_commit s) (init_fault s).

End Scanner.

(** ** Concrete scanners, stores and sessions for the examples *)

Module Demo.

Import Scanner.
Local Open Scope Z_scope.

Fixpoint bytes_eqb (a b : bytes) : bool :=
  match a, b with
  | [], [] => true
  | x :: a', y :: b' => Byte.eqb x y && bytes_eqb a' b'
  | _, _ => false
  end.

(** A scanner that matches a sample against the index by equality and
    merges three samples into the first of them. *)
Definition matching_zkfp2 : ZKFP2 :=
  mkZKFP2
    (fun ix tmp =>
       match find (fun e => bytes_eqb (snd e) tmp) ix with
       | Some e => (fst e, 100)
       | None => (0, 0)
       end)
    (fun templates =>
       match templates with
       | t :: _ => (Some t, Z.of_nat (List.length t))
       | [] => (None, 0)
       end).

(** The same scanner with a [DBMerge] that fails. *)
Definition failing_merge_zkfp2 : ZKFP2 :=
  mkZKFP2 (DBIdentify matching_zkfp2) (fun _ => (None, 0)).

Definition templateA : bytes := list_byte_of_string "finger-A".
Definition templateB : bytes := list_byte_of_string "finger-B".
Definition templateC : bytes := list_byte_of_string "finger-C".

Definition sample (t : bytes) : Capture := (t, list_byte_of_string "image").

Definition encoded (t : bytes) : sql_value :=
  SqlText (Base64.decode_utf8 (Base64.b64encode t)).

Definition clock : string := "2024-05-01 10:00:00".

Definition stored (uid : Z) (t : bytes) : Store.Row :=
  Store.mkRow uid (encoded t) clock.

(** A row whose template text lost its padding character. *)
Definition corrupt (uid : Z) : Store.Row :=
  Store.mkRow uid (SqlText "ZmluZ2VyLUI") clock.

(** A row whose TEXT is not valid UTF-8. *)
Definition unreadable (uid : Z) : Store.Row :=
  Store.mkRow uid (SqlBadText ["255"%byte]) clock.

(** A connected application with the given table, index and polls; a
    write that fails fails in [execute], an initialisation that fails
    fails in [OpenDevice]. *)
Definition app (t : Store.table) (writable : bool) (ix : Index)
           (ps : list (option Capture)) : FingerprintScanner :=
  mkScanner t writable clock true ix ps true [] false AtOpenDevice.

(** Three good reads of one finger. *)
Definition reads_of (t : bytes) : list (option Capture) :=
  [Some (sample t); Some (sample t); Some (sample t)].

(** Three good reads of finger A, with one empty poll in between. *)
Definition three_reads : list (option Capture) :=
  [Some (sample templateA); None; Some (sample templateA);
   Some (sample templateA)].

End Demo.

(** ** Sessions: the application from start-up on *)

Module Session.

Import Scanner.
Local Open Scope Z_scope.

(** What the environment answers during one click: whether the store
    takes a write, the clock, whether the scanner can be opened, the
    polls the scanner will answer, and where a failing write and a
    failing initialisation fail. *)
Record Env : Type := mkEnv {
  env_writable : bool;
  env_now : string;
  env_ready : bool;
  env_polls : list (option Capture);
  env_fails_at_commit : bool;
  env_init_fault : InitStage
}.

Definition with_env (e : Env) (s : FingerprintScanner) : FingerprintScanner :=
  mkScanner (fingerprints s) (env_writable e) (env_now e) (env_ready e)
    (zk_index s) (env_polls e) (is_connected s) (trace s)
    (env_fails_at_commit e) (env_init_fault e).

(** [FingerprintScanner.__init__] on a database file that holds [t]:
    no scanner yet, [is_connected = False]. *)
Definition initial (e : Env) (t : Store.table) : FingerprintScanner :=
  mkScanner t (env_writable e) (env_now e) (env_ready e) [] (env_polls e)
    false [] (env_fails_at_commit e) (env_init_fault e).

(** The two tiles of [main_page]. *)
Inductive Route : Type :=
| RouteRegister
| RouteIdentify.

(** The [on_click] of a tile: [page.go(route) if self.is_connected else
    self.show_dialog(page, "Connection Error", ...)]. *)
Definition main_page_click (route : Route) : M (option Route) :=
  fun s =>
    if is_connected s then (Returned (Some route), s)
    else (bind (show_dialog DlgConnectionError) (fun _ => ret None)) s.

(** [route_change] opens the page of the route; the page's button runs
    its handler. *)
Definition route_change (zkfp2 : ZKFP2) (route : Route) : M unit :=
  match route with
  | RouteRegister => start_register zkfp2
  | RouteIdentify => start_identification zkfp2
  end.

(** What the operator can do from the main page: the connection icon of
    the app bar, and the two tiles followed by the button of their page. *)
Inductive Action : Type :=
| ClickConnect
| ClickRegister
| ClickIdentify.

Definition perform (zkfp2 : ZKFP2) (a : Action) : M unit :=
  match a with
  | ClickConnect => connect_to_device
  | ClickRegister =>
      bind (main_page_click RouteRegister)
        (fun r =>
           match r with
           | Some route => route_change zkfp2 route
           | None => ret tt
           end)
  | ClickIdentify =>
      bind (main_page_click RouteIdentify)
        (fun r =>
           match r with
           | Some route => route_change zkfp2 route
           | None => ret tt
           end)
  end.

(** A sequence of clicks, each under its own environment.  Handlers run
    one after the other: a handler still polling when its polls are used
    up holds back what follows; an exception ends its handler only. *)
Fixpoint run (zkfp2 : ZKFP2) (script : list (Env * Action))
         (s : FingerprintScanner) : FingerprintScanner :=
  match script with
  | [] => s
  | (e, a) :: script' =>
      match perform zkfp2 a (with_env e s) with
      | (Polling, s') => s'
      | (_, s') => run zkfp2 script' s'
      end
  end.

(** A call on captures or on the index of the scanner:
    [AcquireFingerprint], [DBIdentify], [DBMerge], [DBAdd], [DBClear].
    The calls that open the device are not among them. *)
Definition capture_or_index_call (e : Event) : bool :=
  match e with
  | EvAcquire _ | EvIdentify _ _ _ | EvMerge _ _ | EvDBAdd _ _ | EvDBClear =>
      true
  | _ => false
  end.

(** The samples given to [DBIdentify], in order. *)
Fixpoint sampled (evs : list Event) : list bytes :=
  match evs with
  | [] => []
  | EvIdentify tmp _ _ :: evs' => tmp :: sampled evs'
  | _ :: evs' => sampled evs'
  end.

(** Whether [fetchall()] can read every row. *)
Definition all_fetchable (rows : list Store.Row) : bool :=
  forallb (fun row => Store.fetchable (Store.fingerprint_template row)) rows.

(** The index entries of the rows up to the first one that does not
    decode. *)
Fixpoint loaded_upto_corrupt (rows : list Store.Row) : Index :=
  match rows with
  | [] => []
  | row :: rows' =>
      match Base64.b64decode (Store.fingerprint_template row) with
      | Ok t => (Store.user_id row, t) :: loaded_upto_corrupt rows'
      | Raise _ => []
      end
  end.

(** How the loop over the rows ends. *)
Fixpoint loop_outcome (rows : list Store.Row) : outcome unit :=
  match rows with
  | [] => Returned tt
  | row :: rows' =>
      match Base64.b64decode (Store.fingerprint_template row) with
      | Ok _ => loop_outcome rows'
      | Raise e => Raised e
      end
  end.

(** What a load of the rows puts into the index: nothing when they
    cannot all be read, else the entries up to the first row that does
    not decode. *)
Definition loaded (rows : list Store.Row) : Index :=
  if all_fetchable rows then loaded_upto_corrupt rows else [].

(** How a load of the rows ends. *)
Definition load_outcome (rows : list Store.Row) : outcome unit :=
  if all_fetchable rows then loop_outcome rows else Raised OperationalError.

(** The two store calls of a registration, as [start_register] (lines
    320 and 334) and [register_new_fingerprint] (lines 144 and 156) make
    them: [get_next_user_id()], then [save_fingerprint_to_db] under the
    id it returned. *)
Definition allocate_and_save (data : sql_value) : M Z :=
  bind get_next_user_id
    (fun user_id =>
       bind (save_fingerprint_to_db user_id data) (fun _ => ret user_id)).

(** Whether the last call recorded is an [INSERT] of [uid] that was
    executed and committed. *)
Definition committed (uid : Z) (s : FingerprintScanner) : bool :=
  match rev (trace s) with
  | EvInsert uid' _ Store.Inserted :: _ => uid' =? uid
  | _ => false
  end.

(** A sequence of such calls, each under its own environment: the ids
    of those that were committed, oldest first, and the state reached.
    A call that was not committed issues no id. *)
Fixpoint commits (steps : list (Env * sql_value)) (s : FingerprintScanner)
  : list Z * FingerprintScanner :=
  match steps with
  | [] => ([], s)
  | (e, data) :: steps' =>
      let r := allocate_and_save data (with_env e s) in
      let rest := commits steps' (snd r) in
      (match fst r with
       | Returned uid =>
           if committed uid (snd r) then uid :: fst rest else fst rest
       | _ => fst rest
       end,
       snd rest)
  end.

(** A character [a2b_loop] passes over: neither the pad nor in the
    alphabet. *)
Definition skipped (c : byte) : bool :=
  negb (Byte.eqb c Base64.BASE64_PAD)
  && (64 <=? Base64.table_a2b_base64 c)%N.

(** A character of the base64 alphabet, or the pad. *)
Definition in_alphabet (c : byte) : bool :=
  existsb (Byte.eqb c) (Base64.BASE64_PAD :: Base64.table_b2a_base64).

(** The ids 1, 2, ..., n. *)
Definition ids_up_to (n : nat) : list Z := map Z.of_nat (seq 1 n).

End Session.

(** * Properties *)

(** ** Range checks *)

Lemma forall_below_spec (n : nat) (f : N -> bool) :
  forall_below n f = true ->
  forall x, (x < N.of_nat n)%N -> f x = true.
Proof.
  unfold forall_below, N_range. intros H x Hx.
  rewrite forallb_forall in H. apply H.
  rewrite in_map_iff. exists (N.to_nat x). split.
  - apply N2Nat.id.
  - apply in_seq. lia.
Qed.

Lemma forall_below2_spec (n m : nat) (f : N -> N -> bool) :
  forall_below2 n m f = true ->
  forall x y, (x < N.of_nat n)%N -> (y < N.of_nat m)%N -> f x y = true.
Proof.
  unfold forall_below2. intros H x y Hx Hy.
  apply (forall_below_spec m (f x)); [|exact Hy].
  apply (forall_below_spec n (fun x => forall_below m (f x))); assumption.
Qed.

(** Lists three elements at a time, the way [b64encode] reads them. *)
Lemma list_ind3 (A : Type) (P : list A -> Prop) :
  P [] ->
  (forall x, P [x]) ->
  (forall x y, P [x; y]) ->
  (forall x y z l, P l -> P (x :: y :: z :: l)) ->
  forall l, P l.
Proof.
  intros H0 H1 H2 H3 l.
  assert (H : P l /\ (forall x, P (x :: l)) /\ (forall x y, P (x :: y :: l))).
  { induction l as [|a l IH].
    - auto.
    - destruct IH as (IH0 & IH1 & IH2). auto. }
  apply H.
Qed.

(** ** The codec *)

Module Base64Facts.

Import Base64.
Local Open Scope N_scope.

Lemma b2a_table_ok : forall_below 64 b2a_entry_ok = true.
Proof. vm_compute. reflexivity. Qed.

Lemma b2a_entry (x : N) :
  x < 64 ->
  Byte.eqb (b2a x) BASE64_PAD = false
  /\ table_a2b_base64 (b2a x) = x
  /\ is_ascii (b2a x) = true.
Proof.
  intros Hx.
  pose proof (forall_below_spec 64 b2a_entry_ok b2a_table_ok x Hx) as H.
  unfold b2a_entry_ok in H.
  apply andb_prop in H. destruct H as [H Hascii].
  apply andb_prop in H. destruct H as [Hpad Hinv].
  apply negb_true_iff in Hpad. apply N.eqb_eq in Hinv. auto.
Qed.

Lemma pair_table_ok : forall_below2 256 256 pair_ok = true.
Proof. vm_compute. reflexivity. Qed.

Lemma to_N_lt (x : byte) : Byte.to_N x < N.of_nat 256.
Proof. pose proof (Byte.to_N_bounded x). lia. Qed.

Lemma pair_facts (x y : byte) :
  let a := Byte.to_N x in
  let b := Byte.to_N y in
  sextet0 a < 64 /\ sextet1 a b < 64 /\ sextet2 a b < 64 /\ sextet3 a < 64
  /\ N.lor (N.shiftl (sextet0 a) 2) (N.shiftr (sextet1 a b) 4) = a
  /\ N.land (sextet1 a b) 15 = N.shiftr b 4
  /\ N.lor (N.shiftl (N.shiftr a 4) 4) (N.shiftr (sextet2 a b) 2) = a
  /\ N.lor (N.shiftl (N.land (sextet2 a b) 3) 6) (sextet3 b) = b.
Proof.
  intros a b.
  pose proof (forall_below2_spec 256 256 pair_ok pair_table_ok a b
                (to_N_lt x) (to_N_lt y)) as H.
  unfold pair_ok in H.
  repeat (apply andb_prop in H; let H' := fresh "H" in destruct H as [H H']).
  repeat match goal with
         | E : (_ <? _) = true |- _ => apply N.ltb_lt in E
         | E : (_ =? _) = true |- _ => apply N.eqb_eq in E
         end.
  repeat split; assumption.
Qed.

Lemma uchar_to_N (x : byte) : uchar (Byte.to_N x) = x.
Proof.
  unfold uchar. rewrite N.mod_small.
  - now rewrite Byte.of_to_N.
  - pose proof (Byte.to_N_bounded x). lia.
Qed.

(** One step of the decoder on an alphabet character. *)
Lemma a2b_loop_data (x : N) (rest : bytes) (quad_pos leftchar pads : N)
      (bin_data : bytes) :
  x < 64 ->
  a2b_loop (b2a x :: rest) quad_pos leftchar pads bin_data =
  match quad_pos with
  | 0 => a2b_loop rest 1 x 0 bin_data
  | 1 =>
      a2b_loop rest 2 (N.land x 15) 0
        (bin_data ++ [uchar (N.lor (N.shiftl leftchar 2) (N.shiftr x 4))])
  | 2 =>
      a2b_loop rest 3 (N.land x 3) 0
        (bin_data ++ [uchar (N.lor (N.shiftl leftchar 4) (N.shiftr x 2))])
  | _ =>
      a2b_loop rest 0 0 0 (bin_data ++ [uchar (N.lor (N.shiftl leftchar 6) x)])
  end.
Proof.
  intros Hx. destruct (b2a_entry x Hx) as (Hpad & Hinv & _).
  cbn [a2b_loop]. rewrite Hpad, Hinv.
  replace (64 <=? x) with false by (symmetry; apply N.leb_gt; exact Hx).
  reflexivity.
Qed.

(** A pad met with [quad_pos] data characters of the quad read. *)
Lemma a2b_loop_pad (rest : bytes) (quad_pos leftchar pads : N)
      (bin_data : bytes) :
  a2b_loop (BASE64_PAD :: rest) quad_pos leftchar pads bin_data =
  if 2 <=? quad_pos then
    if 4 <=? quad_pos + (pads + 1) then ScanDone bin_data
    else a2b_loop rest quad_pos leftchar (pads + 1) bin_data
  else a2b_loop rest quad_pos leftchar pads bin_data.
Proof. reflexivity. Qed.

(** A full group of three bytes is read back and leaves the decoder in
    its initial state. *)
Lemma a2b_loop_group (x y z : byte) (rest bin_data : bytes) :
  let a := Byte.to_N x in
  let b := Byte.to_N y in
  let c := Byte.to_N z in
  a2b_loop (b2a (sextet0 a) :: b2a (sextet1 a b) :: b2a (sextet2 b c)
              :: b2a (sextet3 c) :: rest) 0 0 0 bin_data =
  a2b_loop rest 0 0 0 (bin_data ++ [x; y; z]).
Proof.
  intros a b c.
  destruct (pair_facts x y) as (Ha0 & Ha1 & _ & _ & Hx & Hc1 & _ & _).
  destruct (pair_facts y z) as (_ & _ & Hb2 & _ & _ & _ & Hy & Hz).
  destruct (pair_facts z z) as (_ & _ & _ & Hc3 & _).
  fold a in Ha0, Ha1, Hx, Hc1. fold b in Ha1, Hx, Hc1, Hb2, Hy, Hz.
  fold c in Hb2, Hy, Hz, Hc3.
  rewrite (a2b_loop_data _ _ 0 _ _ _ Ha0).
  rewrite (a2b_loop_data _ _ 1 _ _ _ Ha1).
  rewrite (a2b_loop_data _ _ 2 _ _ _ Hb2).
  rewrite (a2b_loop_data _ _ 3 _ _ _ Hc3).
  rewrite Hx, Hc1, Hy, Hz.
  unfold a, b, c. rewrite !uchar_to_N.
  rewrite <- !app_assoc. reflexivity.
Qed.

Lemma a2b_loop_encode (data bin_data : bytes) :
  a2b_finish (a2b_loop (b64encode data) 0 0 0 bin_data) = Ok (bin_data ++ data).
Proof.
  revert bin_data. induction data as [| x | x y | x y z data IH] using list_ind3;
    intros bin_data.
  - cbn. now rewrite app_nil_r.
  - cbn [b64encode].
    destruct (pair_facts x x) as (Ha0 & _).
    destruct (pair_facts x "000"%byte) as (_ & Ha1 & _ & _ & Hx & _).
    change (Byte.to_N "000"%byte) with 0 in Ha1, Hx.
    rewrite (a2b_loop_data _ _ 0 _ _ _ Ha0).
    rewrite (a2b_loop_data _ _ 1 _ _ _ Ha1).
    rewrite Hx, uchar_to_N. reflexivity.
  - cbn [b64encode].
    destruct (pair_facts x y) as (Ha0 & Ha1 & _ & _ & Hx & Hc1 & _ & _).
    destruct (pair_facts y "000"%byte) as (_ & _ & Hb2 & _ & _ & _ & Hy & _).
    change (Byte.to_N "000"%byte) with 0 in Hb2, Hy.
    rewrite (a2b_loop_data _ _ 0 _ _ _ Ha0).
    rewrite (a2b_loop_data _ _ 1 _ _ _ Ha1).
    rewrite (a2b_loop_data _ _ 2 _ _ _ Hb2).
    rewrite Hx, Hc1, Hy, !uchar_to_N.
    rewrite <- !app_assoc. reflexivity.
  - cbn [b64encode]. rewrite a2b_loop_group, IH.
    now rewrite <- app_assoc.
Qed.

Lemma a2b_base64_b64encode (data : bytes) :
  a2b_base64 (b64encode data) = Ok data.
Proof. unfold a2b_base64. now rewrite a2b_loop_encode. Qed.

Lemma b64encode_is_ascii (data : bytes) :
  forallb is_ascii (b64encode data) = true.
Proof.
  induction data as [| x | x y | x y z data IH] using list_ind3.
  - reflexivity.
  - cbn [b64encode forallb].
    destruct (pair_facts x x) as (Ha0 & _).
    destruct (pair_facts x "000"%byte) as (_ & Ha1 & _).
    change (Byte.to_N "000"%byte) with 0 in Ha1.
    destruct (b2a_entry _ Ha0) as (_ & _ & ->).
    destruct (b2a_entry _ Ha1) as (_ & _ & ->).
    reflexivity.
  - cbn [b64encode forallb].
    destruct (pair_facts x y) as (Ha0 & Ha1 & _).
    destruct (pair_facts y "000"%byte) as (_ & _ & Hb2 & _).
    change (Byte.to_N "000"%byte) with 0 in Hb2.
    destruct (b2a_entry _ Ha0) as (_ & _ & ->).
    destruct (b2a_entry _ Ha1) as (_ & _ & ->).
    destruct (b2a_entry _ Hb2) as (_ & _ & ->).
    reflexivity.
  - cbn [b64encode forallb].
    destruct (pair_facts x y) as (Ha0 & Ha1 & _).
    destruct (pair_facts y z) as (_ & _ & Hb2 & _).
    destruct (pair_facts z z) as (_ & _ & _ & Hc3 & _).
    destruct (b2a_entry _ Ha0) as (_ & _ & ->).
    destruct (b2a_entry _ Ha1) as (_ & _ & ->).
    destruct (b2a_entry _ Hb2) as (_ & _ & ->).
    destruct (b2a_entry _ Hc3) as (_ & _ & ->).
    exact IH.
Qed.

End Base64Facts.

(** ** The store *)

Module StoreFacts.

Import Store.
Local Open Scope Z_scope.

Lemma fold_max_from (t : table) (acc : Z) :
  exists m,
    fold_left
      (fun acc r =>
         match acc with
         | None => Some (user_id r)
         | Some m => Some (Z.max m (user_id r))
         end) t (Some acc) = Some m
    /\ acc <= m
    /\ (forall x, In x (user_ids t) -> x <= m)
    /\ (m = acc \/ In m (user_ids t)).
Proof.
  revert acc. induction t as [|r t IH]; intros acc.
  - exists acc. cbn. repeat split; try lia; auto; intros x [].
  - cbn [fold_left user_ids map].
    destruct (IH (Z.max acc (user_id r))) as (m & Hm & Hle & Hub & Hin).
    exists m. split; [exact Hm|]. split; [lia|]. split.
    + intros x [Hx|Hx]; [lia|]. now apply Hub.
    + destruct Hin as [Hin|Hin].
      * destruct (Z.max_spec acc (user_id r)) as [[_ E]|[_ E]].
        -- right. left. lia.
        -- left. lia.
      * right. right. exact Hin.
Qed.

(** [SELECT MAX(user_id)] is [None] exactly on the empty table and the
    greatest stored id otherwise. *)
Lemma select_max_spec (t : table) :
  match select_max_user_id t with
  | None => t = []
  | Some m => is_max m (user_ids t)
  end.
Proof.
  destruct t as [|r t]; [reflexivity|].
  unfold select_max_user_id. cbn [fold_left].
  destruct (fold_max_from t (user_id r)) as (m & Hm & Hle & Hub & Hin).
  rewrite Hm. split.
  - destruct Hin as [->|Hin]; [now left | now right].
  - intros x [<-|Hx]; [exact Hle | now apply Hub].
Qed.

Lemma is_max_unique (m m' : Z) (l : list Z) :
  is_max m l -> is_max m' l -> m = m'.
Proof.
  intros [Hin Hub] [Hin' Hub'].
  apply Hub' in Hin. apply Hub in Hin'. lia.
Qed.

Lemma select_max_app (t : table) (r : Row) :
  select_max_user_id (t ++ [r]) =
  Some (match select_max_user_id t with
        | None => user_id r
        | Some m => Z.max m (user_id r)
        end).
Proof.
  unfold select_max_user_id. rewrite fold_left_app. cbn [fold_left].
  now destruct (fold_left _ t None).
Qed.

Lemma select_by_user_id_none (uid : Z) (t : table) :
  (forall x, In x (user_ids t) -> x < uid) ->
  select_by_user_id uid t = None.
Proof.
  intros Hlt. unfold select_by_user_id.
  induction t as [|r t IH]; [reflexivity|].
  cbn [find]. destruct (Z.eqb_spec (user_id r) uid) as [E|_].
  - specialize (Hlt (user_id r) (or_introl eq_refl)). lia.
  - apply IH. intros x Hx. apply Hlt. now right.
Qed.

Lemma insert_inserted (writable at_commit : bool) (r : Row) (t t' : table) :
  insert writable at_commit r t = (Inserted, t') ->
  t' = t ++ [r] /\ writable = true /\ fits_int64 (user_id r) = true.
Proof.
  unfold insert.
  destruct (fits_int64 (user_id r)); cbn [negb]; [|discriminate].
  destruct writable, at_commit; cbn [negb andb]; try discriminate;
    (destruct (existsb _ t); [discriminate|]);
    intros E; inversion E; auto.
Qed.

(** The table after an insert: the row is appended when the statement
    was executed, committed or not, and the table is as before when the
    statement was refused. *)
Lemma insert_table (writable at_commit : bool) (r : Row) (t : table) :
  snd (insert writable at_commit r t) =
  match fst (insert writable at_commit r t) with
  | Inserted => t ++ [r]
  | DatabaseError =>
      if negb writable && at_commit
         && negb (existsb (fun r' => user_id r' =? user_id r) t)
      then t ++ [r] else t
  | IntTooLarge => t
  end.
Proof.
  unfold insert.
  destruct (fits_int64 (user_id r)); cbn [negb]; [|reflexivity].
  destruct writable, at_commit; cbn [negb andb]; try reflexivity;
    now destruct (existsb _ t).
Qed.

(** A statement refused at [execute] leaves the table as it was. *)
Lemma insert_refused (r : Row) (t : table) :
  snd (insert false false r t) = t.
Proof.
  unfold insert. now destruct (fits_int64 (user_id r)).
Qed.

(** An insert never loses a row. *)
Lemma insert_grows (writable at_commit : bool) (r : Row) (t : table) :
  snd (insert writable at_commit r t) = t
  \/ snd (insert writable at_commit r t) = t ++ [r].
Proof.
  unfold insert.
  destruct (fits_int64 (user_id r)); cbn [negb]; [|now left].
  destruct writable, at_commit; cbn [negb andb]; auto;
    destruct (existsb _ t); cbn [snd]; auto.
Qed.

(** The status of an insert into a writable store does not depend on
    where a failure would fall. *)
Lemma insert_writable (at_commit : bool) (r : Row) (t : table) :
  insert true at_commit r t = insert true false r t.
Proof.
  unfold insert. destruct (fits_int64 (user_id r)); cbn [negb andb];
    reflexivity.
Qed.

End StoreFacts.

(** ** The allocator *)

Module AllocatorFacts.

Import Store Scanner StoreFacts.
Local Open Scope Z_scope.

(** What [get_next_user_id] returns is above every stored id. *)
Lemma next_after_above (t : table) (x : Z) :
  In x (user_ids t) -> x < next_after (select_max_user_id t).
Proof.
  intros Hx. pose proof (select_max_spec t) as H.
  destruct (select_max_user_id t) as [m|].
  - destruct H as [_ Hub]. apply Hub in Hx. cbn.
    destruct (Z.eqb_spec m 0); lia.
  - subst t. destruct Hx.
Qed.

(** After the insert of the allocated id the allocator answers the next
    integer. *)
Lemma next_after_insert (t : table) (data : sql_value) (ts : string) :
  let uid := next_after (select_max_user_id t) in
  next_after (select_max_user_id (t ++ [mkRow uid data ts])) = uid + 1.
Proof.
  intros uid. rewrite select_max_app. cbn [user_id].
  pose proof (select_max_spec t) as H. subst uid.
  destruct (select_max_user_id t) as [m|]; cbn.
  - destruct (Z.eqb_spec m 0) as [->|Hm]; [reflexivity|].
    rewrite Z.max_r by lia.
    destruct (Z.eqb_spec (m + 1) 0) as [E|_]; [lia|reflexivity].
  - reflexivity.
Qed.

(** The insert of a row under the allocated id: the id is not in the
    table, so the outcome is decided by the size of the id and by the
    environment alone. *)
Lemma insert_allocated (writable at_commit : bool) (data : sql_value)
      (ts : string) (t : table) :
  let uid := next_after (select_max_user_id t) in
  let row := mkRow uid data ts in
  insert writable at_commit row t =
  if negb (fits_int64 uid) then (IntTooLarge, t)
  else if writable then (Inserted, t ++ [row])
  else if at_commit then (DatabaseError, t ++ [row])
  else (DatabaseError, t).
Proof.
  intros uid row. unfold insert. cbn [user_id row].
  destruct (fits_int64 uid); cbn [negb]; [|reflexivity].
  assert (Hnew : existsb (fun r' => user_id r' =? uid) t = false).
  { destruct (existsb _ t) eqn:Eex; [|reflexivity].
    apply existsb_exists in Eex. destruct Eex as (r' & Hin & Heq).
    apply Z.eqb_eq in Heq.
    pose proof (next_after_above t (user_id r')
                  (in_map user_id _ _ Hin)) as Hlt.
    fold uid in Hlt. lia. }
  rewrite Hnew. now destruct writable, at_commit.
Qed.

End AllocatorFacts.

(** ** The handlers *)

Module ScannerFacts.

Import Store Scanner StoreFacts AllocatorFacts.
Local Open Scope Z_scope.

Lemma same_world_refl (s : FingerprintScanner) : same_world s s.
Proof. unfold same_world. auto. Qed.

Lemma same_world_trans (s1 s2 s3 : FingerprintScanner) :
  same_world s1 s2 -> same_world s2 s3 -> same_world s1 s3.
Proof.
  unfold same_world. intros (A1 & B1 & C1 & D1 & E1) (A2 & B2 & C2 & D2 & E2).
  repeat split; congruence.
Qed.

Lemma same_world_log (e : Event) (s : FingerprintScanner) :
  same_world s (log e s).
Proof. unfold same_world. cbn. auto. Qed.

Lemma same_world_with_polls (ps : list (option Capture))
      (s : FingerprintScanner) :
  same_world s (with_polls ps s).
Proof. unfold same_world. cbn. auto. Qed.

Create HintDb scanner.

#[local] Hint Resolve same_world_refl same_world_log same_world_with_polls
  : scanner.

Lemma forallb_acquire_quiet (evs : list Event) :
  forallb is_acquire evs = true -> forallb quiet evs = true.
Proof.
  induction evs as [|e evs IH]; [reflexivity|].
  cbn [forallb]. intros H. apply andb_prop in H. destruct H as [He H].
  rewrite (IH H). destruct e; try discriminate. reflexivity.
Qed.

Lemma quiet_identify (evs : list Event) (tmp : bytes) (fid score : Z) :
  forallb quiet evs = true -> In (EvIdentify tmp fid score) evs -> fid = 0.
Proof.
  intros H Hin. rewrite forallb_forall in H. apply H in Hin.
  cbn in Hin. now apply Z.eqb_eq in Hin.
Qed.

Lemma quiet_not_write (evs : list Event) :
  forallb quiet evs = true ->
  forallb (fun e => negb (merges_or_writes e)) evs = true.
Proof.
  induction evs as [|e evs IH]; [reflexivity|].
  cbn [forallb]. intros H. apply andb_prop in H. destruct H as [He H].
  rewrite (IH H). destruct e; try discriminate; reflexivity.
Qed.

(** The polling loop only polls: it adds [EvAcquire] events, ends on the
    capture it returns, and never raises. *)
Lemma acquire_from_spec (ps : list (option Capture)) (s : FingerprintScanner) :
  exists evs,
    trace (snd (acquire_from ps s)) = trace s ++ evs
    /\ forallb is_acquire evs = true
    /\ same_world s (snd (acquire_from ps s))
    /\ match fst (acquire_from ps s) with
       | Returned capture => exists pre, evs = pre ++ [EvAcquire (Some capture)]
       | Raised _ => False
       | Polling => True
       end.
Proof.
  revert s. induction ps as [|[capture|] ps IH]; intros s.
  - exists []. cbn. rewrite app_nil_r. auto with scanner.
  - exists [EvAcquire (Some capture)]. cbn. repeat split.
    now exists [].
  - destruct (IH (log (EvAcquire None) s)) as (evs & Htr & Hacq & Hw & Hlast).
    exists (EvAcquire None :: evs). cbn [acquire_from].
    repeat split.
    + rewrite Htr. cbn. now rewrite <- app_assoc.
    + exact Hacq.
    + apply Hw.
    + apply Hw.
    + apply Hw.
    + apply Hw.
    + apply Hw.
    + destruct (fst (acquire_from ps (log (EvAcquire None) s))); auto.
      destruct Hlast as [pre ->]. now exists (EvAcquire None :: pre).
Qed.

(** What the three capture rounds of [start_register] leave behind. *)
Definition rounds_post (s : FingerprintScanner)
           (r : outcome (option (list bytes))) (s' : FingerprintScanner)
  : Prop :=
  same_world s s'
  /\ exists evs,
      trace s' = trace s ++ evs
      /\ match r with
         | Returned (Some _) => forallb quiet evs = true
         | Returned None =>
             exists pre capture fid score,
               evs = pre ++ [EvAcquire (Some capture);
                             EvIdentify (fst capture) fid score;
                             EvDialog (DlgFingerprintExists fid)]
               /\ fid <> 0
               /\ forallb quiet pre = true
         | Raised _ => False
         | Polling => forallb quiet evs = true
         end.

Lemma register_rounds_S (zkfp2 : ZKFP2) (n : nat) (templates : list bytes)
      (s : FingerprintScanner) :
  register_rounds zkfp2 (S n) templates s =
  match acquire_from (polls s) s with
  | (Returned capture, s1) =>
      let r := DBIdentify zkfp2 (zk_index s1) (fst capture) in
      let s2 := log (EvIdentify (fst capture) (fst r) (snd r)) s1 in
      if fst r =? 0
      then register_rounds zkfp2 n (templates ++ [fst capture]) s2
      else (Returned None, log (EvDialog (DlgFingerprintExists (fst r))) s2)
  | (Raised e, s1) => (Raised e, s1)
  | (Polling, s1) => (Polling, s1)
  end.
Proof.
  cbn [register_rounds]. unfold bind, acquire_loop, identify.
  destruct (acquire_from (polls s) s) as [[capture| e |] s1]; try reflexivity.
  destruct (fst (DBIdentify zkfp2 (zk_index s1) (fst capture)) =? 0);
    reflexivity.
Qed.

Lemma register_rounds_spec (zkfp2 : ZKFP2) (n : nat) (templates : list bytes)
      (s s' : FingerprintScanner) (r : outcome (option (list bytes))) :
  register_rounds zkfp2 n templates s = (r, s') -> rounds_post s r s'.
Proof.
  revert templates s. induction n as [|n IH]; intros templates s Hrun.
  - cbn in Hrun. inversion Hrun; subst.
    split; [auto with scanner|]. exists []. now rewrite app_nil_r.
  - rewrite register_rounds_S in Hrun.
    destruct (acquire_from_spec (polls s) s)
      as (evs1 & Htr1 & Hacq1 & Hw1 & Hlast).
    destruct (acquire_from (polls s) s) as [[capture| e |] s1];
      cbn [fst snd] in *.
    + cbv zeta in Hrun.
      set (fs := DBIdentify zkfp2 (zk_index s1) (fst capture)) in *.
      set (s2 := log (EvIdentify (fst capture) (fst fs) (snd fs)) s1) in *.
      destruct (Z.eqb_spec (fst fs) 0) as [Hz|Hnz].
      * apply IH in Hrun. destruct Hrun as (Hw2 & evs2 & Htr2 & Hcase).
        split.
        { eapply same_world_trans; [exact Hw1|].
          eapply same_world_trans; [|exact Hw2]. apply same_world_log. }
        exists (evs1 ++ EvIdentify (fst capture) (fst fs) (snd fs) :: evs2).
        split.
        { rewrite Htr2. subst s2. cbn [trace log]. rewrite Htr1.
          now rewrite <- !app_assoc. }
        assert (Hq : forall l, forallb quiet l = true ->
                  forallb quiet
                    (evs1 ++ EvIdentify (fst capture) (fst fs) (snd fs) :: l)
                  = true).
        { intros l Hl. rewrite forallb_app. cbn [forallb quiet].
          rewrite (forallb_acquire_quiet _ Hacq1), Hl, Hz. reflexivity. }
        destruct r as [[ts|]| e |]; auto.
        destruct Hcase as (pre & c' & fid & score & -> & Hfid & Hpre).
        exists (evs1 ++ EvIdentify (fst capture) (fst fs) (snd fs) :: pre),
          c', fid, score.
        repeat split; auto. now rewrite <- app_assoc.
      * inversion Hrun; subst r s'. split.
        { eapply same_world_trans; [exact Hw1|]. unfold same_world. cbn. auto. }
        destruct Hlast as [pre ->].
        exists ((pre ++ [EvAcquire (Some capture)])
                  ++ [EvIdentify (fst capture) (fst fs) (snd fs);
                      EvDialog (DlgFingerprintExists (fst fs))]).
        split.
        { subst s2. cbn [trace log]. rewrite Htr1. now rewrite <- !app_assoc. }
        exists pre, capture, (fst fs), (snd fs). repeat split; auto.
        -- now rewrite <- !app_assoc.
        -- rewrite forallb_app in Hacq1. apply andb_prop in Hacq1.
           apply forallb_acquire_quiet. apply Hacq1.
    + destruct Hlast.
    + inversion Hrun; subst r s'.
      split; [exact Hw1|]. exists evs1. split; [exact Htr1|].
      now apply forallb_acquire_quiet.
Qed.

Lemma save_fingerprint_to_db_spec (user_id : Z) (data : sql_value)
      (s : FingerprintScanner) :
  let row := mkRow user_id data (now s) in
  let ins := insert (db_writable s) (fails_at_commit s) row (fingerprints s) in
  save_fingerprint_to_db user_id data s =
  (match fst ins with
   | IntTooLarge => Raised OverflowError
   | _ => Returned tt
   end,
   log (EvInsert user_id data (fst ins)) (with_fingerprints (snd ins) s)).
Proof.
  intros row ins. unfold save_fingerprint_to_db. fold row. fold ins.
  assert (Hbig : fst ins = IntTooLarge -> snd ins = fingerprints s).
  { subst ins. unfold insert.
    destruct (fits_int64 _); cbn [negb]; [|reflexivity].
    destruct (negb _ && negb _); [discriminate|].
    destruct (existsb _ _); [discriminate|].
    destruct (db_writable s); discriminate. }
  destruct ins as [st t]. cbn [fst snd] in *.
  destruct st; try reflexivity.
  rewrite (Hbig eq_refl). now destruct s.
Qed.

Lemma start_register_unfold (zkfp2 : ZKFP2) (s : FingerprintScanner) :
  start_register zkfp2 s =
  match register_rounds zkfp2 3 [] s with
  | (Returned None, s1) => (Returned tt, s1)
  | (Returned (Some templates), s1) =>
      let regTemp := fst (DBMerge zkfp2 templates) in
      let s2 := log (EvMerge templates regTemp) s1 in
      match regTemp with
      | Some (x :: b) =>
          let user_id := next_after (select_max_user_id (fingerprints s2)) in
          let data := SqlText (Base64.decode_utf8 (Base64.b64encode (x :: b))) in
          let s3 :=
            log (EvDBAdd user_id (x :: b))
              (with_index (zk_index s2 ++ [(user_id, x :: b)]) s2) in
          match save_fingerprint_to_db user_id data s3 with
          | (Returned _, s4) =>
              (Returned tt, log (EvDialog (DlgRegistrationSuccess user_id)) s4)
          | (Raised e, s4) => (Raised e, s4)
          | (Polling, s4) => (Polling, s4)
          end
      | _ => (Returned tt, log (EvDialog DlgMergeError) s2)
      end
  | (Raised e, s1) => (Raised e, s1)
  | (Polling, s1) => (Polling, s1)
  end.
Proof.
  unfold start_register. unfold bind at 1.
  destruct (register_rounds zkfp2 3 [] s) as [[[templates|]| e |] s1];
    try reflexivity.
  unfold bind at 1. unfold merge at 1. cbv zeta.
  destruct (fst (DBMerge zkfp2 templates)) as [[|x b]|]; reflexivity.
Qed.

(** The capture rounds of [capture_fingerprints] only poll. *)
Lemma capture_rounds_spec (n : nat) (templates : list bytes)
      (s s' : FingerprintScanner) (r : outcome (list bytes)) :
  capture_rounds n templates s = (r, s') ->
  same_world s s'
  /\ (exists evs, trace s' = trace s ++ evs /\ forallb is_acquire evs = true)
  /\ (forall e, r <> Raised e).
Proof.
  revert templates s. induction n as [|n IH]; intros templates s Hrun.
  - cbn in Hrun. inversion Hrun; subst. split; [auto with scanner|].
    split; [|discriminate]. exists []. now rewrite app_nil_r.
  - cbn [capture_rounds] in Hrun. unfold bind, acquire_loop in Hrun.
    destruct (acquire_from_spec (polls s) s)
      as (evs1 & Htr1 & Hacq1 & Hw1 & Hlast).
    destruct (acquire_from (polls s) s) as [[capture| e |] s1];
      cbn [fst snd] in *.
    + apply IH in Hrun. destruct Hrun as (Hw2 & (evs2 & Htr2 & Hacq2) & Hr).
      split; [eapply same_world_trans; eassumption|].
      split; [|exact Hr]. exists (evs1 ++ evs2). split.
      * rewrite Htr2, Htr1. now rewrite <- app_assoc.
      * rewrite forallb_app, Hacq1, Hacq2. reflexivity.
    + destruct Hlast.
    + inversion Hrun; subst. split; [exact Hw1|].
      split; [|discriminate]. now exists evs1.
Qed.

Lemma register_new_fingerprint_unfold (zkfp2 : ZKFP2)
      (s : FingerprintScanner) :
  register_new_fingerprint zkfp2 s =
  match capture_rounds 3 [] s with
  | (Returned templates, s1) =>
      let regTemp := fst (DBMerge zkfp2 templates) in
      let s2 := log (EvMerge templates regTemp) s1 in
      match regTemp with
      | Some (x :: b) =>
          let user_id := next_after (select_max_user_id (fingerprints s)) in
          let data := SqlBlob (Base64.b64encode (x :: b)) in
          save_fingerprint_to_db user_id data
            (log (EvDBAdd user_id (x :: b))
               (with_index (zk_index s2 ++ [(user_id, x :: b)]) s2))
      | _ => (Raised TypeError, s2)
      end
  | (Raised e, s1) => (Raised e, s1)
  | (Polling, s1) => (Polling, s1)
  end.
Proof.
  unfold register_new_fingerprint, capture_fingerprints, get_next_user_id.
  unfold bind at 1. unfold bind at 1. unfold bind at 1.
  destruct (capture_rounds 3 [] s) as [[templates| e |] s1]; try reflexivity.
  unfold bind at 1. unfold merge at 1. cbv zeta.
  destruct (fst (DBMerge zkfp2 templates)) as [[|x b]|]; reflexivity.
Qed.

Lemma start_identification_unfold (zkfp2 : ZKFP2) (s : FingerprintScanner) :
  start_identification zkfp2 s =
  match acquire_from (polls s) s with
  | (Returned capture, s1) =>
      let r := DBIdentify zkfp2 (zk_index s1) (fst capture) in
      let s2 := log (EvIdentify (fst capture) (fst r) (snd r)) s1 in
      if fst r =? 0 then
        let user_id := next_after (select_max_user_id (fingerprints s2)) in
        if fits_int64 user_id then
          match select_by_user_id user_id (fingerprints s2) with
          | Some row =>
              if fetchable (fingerprint_template row) then
                match Base64.b64decode (fingerprint_template row) with
                | Ok decoded_template =>
                    (Returned tt,
                     log (EvDialog (DlgUserFoundInDatabase user_id))
                       (log (EvDBAdd user_id decoded_template)
                          (with_index
                             (zk_index s2 ++ [(user_id, decoded_template)])
                             s2)))
                | Raise e => (Raised e, s2)
                end
              else (Raised OperationalError, s2)
          | None => (Returned tt, log (EvDialog DlgIdentificationFailed) s2)
          end
        else (Raised OverflowError, s2)
      else
        (Returned tt, log (EvDialog (DlgUserIdentified (fst r) (snd r))) s2)
  | (Raised e, s1) => (Raised e, s1)
  | (Polling, s1) => (Polling, s1)
  end.
Proof.
  unfold start_identification, acquire_loop. unfold bind at 1.
  destruct (acquire_from (polls s) s) as [[capture| e |] s1]; try reflexivity.
  unfold bind at 1. unfold identify at 1. cbv zeta.
  destruct (fst (DBIdentify zkfp2 (zk_index s1) (fst capture)) =? 0);
    [|reflexivity].
  cbn [negb]. unfold bind at 1. unfold get_next_user_id at 1.
  unfold bind at 1. unfold fetch_by_user_id at 1. cbn [fingerprints log].
  destruct (fits_int64 _); [|reflexivity].
  destruct (select_by_user_id _ _) as [row|]; [|reflexivity].
  destruct (fetchable (fingerprint_template row)); [|reflexivity].
  unfold bind at 1.
  destruct (Base64.b64decode (fingerprint_template row)); reflexivity.
Qed.

Lemma added_nil (s : FingerprintScanner) : added [] s = s.
Proof. destruct s. unfold added. cbn. now rewrite !app_nil_r. Qed.

Lemma added_cons (uid : Z) (t : bytes) (entries : Index)
      (s : FingerprintScanner) :
  added entries
    (log (EvDBAdd uid t) (with_index (zk_index s ++ [(uid, t)]) s)) =
  added ((uid, t) :: entries) s.
Proof. unfold added. cbn. now rewrite <- !app_assoc. Qed.

Lemma load_rows_cons (row : Row) (rows : list Row) (s : FingerprintScanner) :
  load_rows (row :: rows) s =
  match Base64.b64decode (fingerprint_template row) with
  | Ok t =>
      load_rows rows
        (log (EvDBAdd (user_id row) t)
           (with_index (zk_index s ++ [(user_id row, t)]) s))
  | Raise e => (Raised e, s)
  end.
Proof.
  cbn [load_rows]. unfold bind at 1.
  destruct (Base64.b64decode (fingerprint_template row)); reflexivity.
Qed.


(** The load stops at the first row that does not decode, with the
    decoder's exception. *)
Lemma load_rows_corrupt (pre post : list Row) (bad : Row) (e : exn)
      (s : FingerprintScanner) :
  forallb decodable pre = true ->
  Base64.b64decode (fingerprint_template bad) = Raise e ->
  load_rows (pre ++ bad :: post) s = (Raised e, added (decoded_entries pre) s).
Proof.
  revert s. induction pre as [|row pre IH]; intros s Hdec Hbad.
  - cbn [app decoded_entries]. rewrite load_rows_cons, Hbad.
    now rewrite added_nil.
  - cbn [forallb] in Hdec. apply andb_prop in Hdec. destruct Hdec as [Hrow Hdec].
    cbn [app]. rewrite load_rows_cons. cbn [decoded_entries].
    unfold decodable in Hrow.
    destruct (Base64.b64decode (fingerprint_template row)) as [t|e'];
      [|discriminate].
    rewrite (IH _ Hdec Hbad). now rewrite added_cons.
Qed.




Lemma connect_to_device_ready (s : FingerprintScanner) :
  device_ready s = true ->
  connect_to_device s =
  load_fingerprints_from_db
    (log (EvDialog DlgConnectionSuccess)
       (with_connected true
          (log EvDBClear (log_all opening_calls (with_index [] s))))).
Proof.
  intros Hready. unfold connect_to_device, initialize_zkfp2.
  unfold bind at 1. rewrite Hready. reflexivity.
Qed.



(** A session whose merge succeeded: the calls it goes on to make and
    the state it ends in, by the status [st] of the insert. *)
Lemma start_register_merged (zkfp2 : ZKFP2) (s s1 : FingerprintScanner)
      (templates : list bytes) (x : byte) (b : bytes) :
  register_rounds zkfp2 3 [] s = (Returned (Some templates), s1) ->
  fst (DBMerge zkfp2 templates) = Some (x :: b) ->
  let user_id := next_after (select_max_user_id (fingerprints s1)) in
  let data := SqlText (Base64.decode_utf8 (Base64.b64encode (x :: b))) in
  let row := mkRow user_id data (now s1) in
  let ins :=
    insert (db_writable s1) (fails_at_commit s1) row (fingerprints s1) in
  let s4 :=
    log (EvInsert user_id data (fst ins))
      (with_fingerprints (snd ins)
         (log (EvDBAdd user_id (x :: b))
            (with_index (zk_index s1 ++ [(user_id, x :: b)])
               (log (EvMerge templates (Some (x :: b))) s1)))) in
  start_register zkfp2 s =
  match fst ins with
  | IntTooLarge => (Raised OverflowError, s4)
  | _ => (Returned tt, log (EvDialog (DlgRegistrationSuccess user_id)) s4)
  end.
Proof.
  intros Hrounds Hmerge user_id data row ins s4.
  rewrite start_register_unfold, Hrounds. cbv zeta. rewrite Hmerge.
  rewrite save_fingerprint_to_db_spec. cbv zeta.
  cbn [fingerprints db_writable fails_at_commit now log with_index].
  fold user_id. fold data. fold row. fold ins.
  destruct (fst ins) eqn:Est; subst s4; rewrite ?Est; reflexivity.
Qed.

(** A session whose merge failed in [start_register]. *)
Lemma start_register_merge_failed (zkfp2 : ZKFP2) (s s1 : FingerprintScanner)
      (templates : list bytes) :
  register_rounds zkfp2 3 [] s = (Returned (Some templates), s1) ->
  truthy (fst (DBMerge zkfp2 templates)) = false ->
  start_register zkfp2 s =
  (Returned tt,
   log (EvDialog DlgMergeError)
     (log (EvMerge templates (fst (DBMerge zkfp2 templates))) s1)).
Proof.
  intros Hrounds Hfalsy. rewrite start_register_unfold, Hrounds. cbv zeta.
  destruct (fst (DBMerge zkfp2 templates)) as [[|x b]|];
    [reflexivity|discriminate|reflexivity].
Qed.

(** After three retained samples [start_register] identifies no more. *)
Lemma start_register_after_rounds (zkfp2 : ZKFP2) (s s1 : FingerprintScanner)
      (templates : list bytes) :
  register_rounds zkfp2 3 [] s = (Returned (Some templates), s1) ->
  exists later,
    trace (snd (start_register zkfp2 s)) = trace s1 ++ later
    /\ forall tmp fid score, ~ In (EvIdentify tmp fid score) later.
Proof.
  intros Hrounds.
  destruct (fst (DBMerge zkfp2 templates)) as [[|x b]|] eqn:Hmerge.
  - rewrite (start_register_merge_failed zkfp2 s s1 templates Hrounds)
      by now rewrite Hmerge.
    eexists. cbn [snd trace log]. rewrite <- app_assoc. split; [reflexivity|].
    intros tmp fid score [H|[H|[]]]; discriminate.
  - pose proof (start_register_merged zkfp2 s s1 templates x b Hrounds Hmerge)
      as Hrun.
    cbv zeta in Hrun. rewrite Hrun.
    destruct (fst (insert _ _ _ _));
      eexists; cbn [snd trace log with_index with_fingerprints];
      rewrite <- ?app_assoc; (split; [reflexivity|]);
      intros tmp fid score Hin; cbn in Hin;
      repeat (destruct Hin as [Hin|Hin]; [discriminate|]); destruct Hin.
  - rewrite (start_register_merge_failed zkfp2 s s1 templates Hrounds)
      by now rewrite Hmerge.
    eexists. cbn [snd trace log]. rewrite <- app_assoc. split; [reflexivity|].
    intros tmp fid score [H|[H|[]]]; discriminate.
Qed.

Lemma decoded_entries_length (rows : list Row) :
  forallb decodable rows = true ->
  List.length (decoded_entries rows) = List.length rows.
Proof.
  induction rows as [|row rows IH]; [reflexivity|].
  cbn [forallb decoded_entries]. intros H. apply andb_prop in H.
  destruct H as [Hrow H]. unfold decodable in Hrow.
  destruct (Base64.b64decode (fingerprint_template row)); [|discriminate].
  cbn [List.length]. now rewrite IH.
Qed.

End ScannerFacts.

(** * The properties of the template lifecycle *)

Import Store Scanner Demo Session.
Import StoreFacts AllocatorFacts ScannerFacts Base64Facts.
Local Open Scope Z_scope.

(** ** Codec *)

(** C7: for every template [t], decoding the encoding of [t] gives [t]
    back.  The first equation is the path of [start_register] and of the
    two readers: [b64encode(t).decode('utf-8')] stored as TEXT and read
    back by [b64decode]; the second is the path of
    [register_new_fingerprint], which stores the encoded [bytes]. *)
Theorem codec_round_trip (t : bytes) :
  Base64.b64decode (SqlText (Base64.decode_utf8 (Base64.b64encode t))) = Ok t
  /\ Base64.b64decode (SqlBlob (Base64.b64encode t)) = Ok t.
Proof.
  split.
  - unfold Base64.b64decode, Base64.decode_utf8.
    rewrite list_byte_of_string_of_list_byte.
    rewrite b64encode_is_ascii. apply a2b_base64_b64encode.
  - cbn [Base64.b64decode]. apply a2b_base64_b64encode.
Qed.

(** ** Allocation of user ids *)

(** C6: [get_next_user_id] leaves the state alone and returns 1 on an
    empty store and the greatest stored [user_id] plus one otherwise. *)
Theorem get_next_user_id_max_plus_one (s : FingerprintScanner) :
  exists v,
    get_next_user_id s = (Returned v, s)
    /\ (fingerprints s = [] -> v = 1)
    /\ (forall m, is_max m (user_ids (fingerprints s)) -> v = m + 1)
    /\ (fingerprints s <> [] ->
        exists m, is_max m (user_ids (fingerprints s))).
Proof.
  exists (next_after (select_max_user_id (fingerprints s))).
  split; [reflexivity|].
  pose proof (select_max_spec (fingerprints s)) as Hmax.
  destruct (select_max_user_id (fingerprints s)) as [m|].
  - split; [|split].
    + intros E. rewrite E in Hmax. destruct Hmax as [[] _].
    + intros m' Hm'. rewrite (is_max_unique _ _ _ Hm' Hmax). cbn.
      destruct (Z.eqb_spec m 0) as [->|_]; reflexivity.
    + intros _. now exists m.
  - split; [reflexivity|]. split.
    + intros m' [Hin _]. rewrite Hmax in Hin. destruct Hin.
    + intros Hne. contradiction.
Qed.

(** C10, as stated, fails: on a store whose only record has [user_id] 0
    the allocator returns 1, which is max + 1 and not something else; and
    on a store that holds [user_id] 0 below a larger id it does not
    return 1. *)
Lemma zero_id_counterexample :
  select_max_user_id [stored 0 templateA] = Some 0
  /\ get_next_user_id (app [stored 0 templateA] true [] [])
     = (Returned (0 + 1), app [stored 0 templateA] true [] [])
  /\ In 0 (user_ids [stored 0 templateA; stored 5 templateB])
  /\ get_next_user_id (app [stored 0 templateA; stored 5 templateB] true [] [])
     = (Returned 6, app [stored 0 templateA; stored 5 templateB] true [] []).
Proof. repeat split. now left. Qed.

(** C10, amended: whenever the greatest stored [user_id] is 0,
    [get_next_user_id] takes the branch of the empty store and returns 1,
    which is that maximum plus one. *)
Theorem get_next_user_id_zero_max (s : FingerprintScanner) (m : Z) :
  is_max m (user_ids (fingerprints s)) ->
  m = 0 ->
  get_next_user_id s = (Returned 1, s)
  /\ next_after (select_max_user_id (fingerprints s)) = next_after None
  /\ 1 = m + 1.
Proof.
  intros Hmax ->. unfold get_next_user_id.
  pose proof (select_max_spec (fingerprints s)) as Hsel.
  destruct (select_max_user_id (fingerprints s)) as [m'|].
  - rewrite (is_max_unique _ _ _ Hsel Hmax). auto.
  - destruct Hmax as [Hin _]. rewrite Hsel in Hin. destruct Hin.
Qed.

Lemma get_next_user_id_zero_max_witness :
  is_max 0 (user_ids (fingerprints (app [stored 0 templateA] true [] [])))
  /\ (get_next_user_id (app [stored 0 templateA] true [] [])
      = (Returned 1, app [stored 0 templateA] true [] [])
      /\ next_after
           (select_max_user_id
              (fingerprints (app [stored 0 templateA] true [] [])))
         = next_after None
      /\ 1 = 0 + 1).
Proof.
  assert (H : is_max 0
                (user_ids (fingerprints (app [stored 0 templateA] true [] [])))).
  { split; [now left|]. intros x Hx. vm_compute in Hx.
    destruct Hx as [<-|[]]. lia. }
  split; [exact H|].
  exact (get_next_user_id_zero_max (app [stored 0 templateA] true [] []) 0
           H eq_refl).
Defined.

Lemma strongly_sorted_lt_nodup (l : list Z) :
  StronglySorted Z.lt l -> NoDup l.
Proof.
  induction 1 as [|x l Hs IH Hall]; constructor; [|exact IH].
  intros Hin. rewrite Forall_forall in Hall. apply Hall in Hin. lia.
Qed.

(** What the two store calls of a registration do, by the outcome of
    the insert. *)
Lemma allocate_and_save_spec (data : sql_value) (s : FingerprintScanner) :
  let uid := next_after (select_max_user_id (fingerprints s)) in
  let row := mkRow uid data (now s) in
  let ins := insert (db_writable s) (fails_at_commit s) row (fingerprints s) in
  allocate_and_save data s =
  (match fst ins with
   | IntTooLarge => Raised OverflowError
   | _ => Returned uid
   end,
   log (EvInsert uid data (fst ins)) (with_fingerprints (snd ins) s)).
Proof.
  intros uid row ins. unfold allocate_and_save, get_next_user_id.
  unfold bind at 1. fold uid. unfold bind at 1.
  rewrite save_fingerprint_to_db_spec. cbv zeta. fold row. fold ins.
  now destruct (fst ins).
Qed.

Lemma committed_log (uid uid' : Z) (data : sql_value) (st : insert_status)
      (s : FingerprintScanner) :
  committed uid (log (EvInsert uid' data st) s) =
  match st with
  | Inserted => uid' =? uid
  | _ => false
  end.
Proof.
  unfold committed. cbn [trace log]. rewrite rev_unit. reflexivity.
Qed.

(** An insert under the allocated id never lowers what the allocator
    answers, and a committed one raises it by one. *)
Lemma next_after_insert_allocated (writable at_commit : bool)
      (data : sql_value) (ts : string) (t : table) :
  let uid := next_after (select_max_user_id t) in
  let ins := insert writable at_commit (mkRow uid data ts) t in
  uid <= next_after (select_max_user_id (snd ins))
  /\ (fst ins = Inserted ->
      snd ins = t ++ [mkRow uid data ts]
      /\ next_after (select_max_user_id (snd ins)) = uid + 1).
Proof.
  intros uid ins. split.
  - destruct (insert_grows writable at_commit (mkRow uid data ts) t)
      as [E|E]; fold ins in E; rewrite E; [lia|].
    subst uid. rewrite next_after_insert. lia.
  - intros Hst. destruct ins as [st t'] eqn:Eins. cbn [fst snd] in *.
    subst st. apply insert_inserted in Eins. destruct Eins as (-> & _ & _).
    split; [reflexivity|]. apply next_after_insert.
Qed.

Lemma commits_cons (e : Env) (data : sql_value)
      (steps : list (Env * sql_value)) (s : FingerprintScanner) :
  let uid := next_after (select_max_user_id (fingerprints s)) in
  let row := mkRow uid data (env_now e) in
  let ins :=
    insert (env_writable e) (env_fails_at_commit e) row (fingerprints s) in
  let s1 :=
    log (EvInsert uid data (fst ins))
      (with_fingerprints (snd ins) (with_env e s)) in
  commits ((e, data) :: steps) s =
  (match fst ins with
   | Inserted => uid :: fst (commits steps s1)
   | _ => fst (commits steps s1)
   end,
   snd (commits steps s1)).
Proof.
  intros uid row ins s1. cbn [commits].
  rewrite allocate_and_save_spec. cbv zeta.
  cbn [fingerprints now db_writable fails_at_commit with_env].
  fold uid. fold row. fold ins. cbn [fst snd]. fold s1.
  destruct (fst ins) eqn:Est; try reflexivity;
    unfold s1 at 1; rewrite committed_log; [|reflexivity].
  now rewrite Z.eqb_refl.
Qed.

(** The ids committed, followed by the next answer of the allocator,
    increase and start at or above the answer of the allocator at the
    start; the table loses no row and holds the ids committed. *)
Lemma commits_spec (steps : list (Env * sql_value)) (s : FingerprintScanner) :
  let ids := fst (commits steps s) in
  let t' := fingerprints (snd (commits steps s)) in
  StronglySorted Z.lt (ids ++ [next_after (select_max_user_id t')])
  /\ Forall (fun x => next_after (select_max_user_id (fingerprints s)) <= x)
       (ids ++ [next_after (select_max_user_id t')])
  /\ incl (fingerprints s) t'
  /\ incl ids (user_ids t').
Proof.
  revert s. induction steps as [|[e data] steps IH]; intros s.
  - cbn. repeat split.
    + repeat constructor.
    + constructor; [lia|constructor].
    + apply incl_refl.
    + apply incl_nil_l.
  - cbv zeta. rewrite commits_cons. cbv zeta.
    set (uid := next_after (select_max_user_id (fingerprints s))).
    set (row := mkRow uid data (env_now e)).
    set (ins := insert (env_writable e) (env_fails_at_commit e) row
                  (fingerprints s)).
    set (s1 := log (EvInsert uid data (fst ins))
                 (with_fingerprints (snd ins) (with_env e s))).
    specialize (IH s1). cbv zeta in IH.
    destruct IH as (Hsorted & Hlow & Hincl & Hids).
    assert (Hfp1 : fingerprints s1 = snd ins) by reflexivity.
    rewrite Hfp1 in Hlow, Hincl.
    pose proof (next_after_insert_allocated (env_writable e)
                  (env_fails_at_commit e) data (env_now e) (fingerprints s))
      as Hnext.
    cbv zeta in Hnext. fold uid in Hnext. fold row in Hnext.
    fold ins in Hnext. destruct Hnext as [Hle Hcommitted].
    assert (Hkeep : incl (fingerprints s) (snd ins)).
    { destruct (insert_grows (env_writable e) (env_fails_at_commit e) row
                  (fingerprints s)) as [E|E]; fold ins in E; rewrite E.
      - apply incl_refl.
      - apply incl_appl, incl_refl. }
    cbn [fst snd].
    assert (Hlow' : Forall (fun x => uid <= x)
                      (fst (commits steps s1)
                         ++ [next_after
                               (select_max_user_id
                                  (fingerprints (snd (commits steps s1))))])).
    { eapply Forall_impl; [|exact Hlow]. cbn beta. intros x Hx. lia. }
    assert (Htail : incl (fingerprints s)
                      (fingerprints (snd (commits steps s1)))).
    { eapply incl_tran; eassumption. }
    destruct (fst ins) eqn:Est.
    + destruct (Hcommitted eq_refl) as [Ht Hsucc].
      repeat split.
      * cbn [List.app]. constructor; [exact Hsorted|].
        rewrite Hsucc in Hlow. eapply Forall_impl; [|exact Hlow].
        cbn beta. intros x Hx. lia.
      * cbn [List.app]. constructor; [lia|exact Hlow'].
      * exact Htail.
      * apply incl_cons; [|exact Hids].
        apply in_map_iff. exists row. split; [reflexivity|].
        apply Hincl. rewrite Ht. apply in_or_app. right. now left.
    + repeat split; assumption.
    + repeat split; assumption.
Qed.

(** C8: along any sequence of registrations' store calls
    ([get_next_user_id] then [save_fingerprint_to_db] under the id it
    returned), the ids of the committed ones, in the order they were
    issued and followed by what [get_next_user_id] returns afterwards,
    are strictly increasing; so no id is issued twice, each is above
    every id the store held at the start, and the next id is above every
    id issued.  No row leaves the table, and every id issued is in it. *)
Theorem committed_ids_increase
        (steps : list (Env * sql_value)) (s : FingerprintScanner) :
  let ids := fst (commits steps s) in
  let s' := snd (commits steps s) in
  exists v,
    get_next_user_id s' = (Returned v, s')
    /\ StronglySorted Z.lt (ids ++ [v])
    /\ NoDup (ids ++ [v])
    /\ (forall uid, In uid ids ->
        forall x, In x (user_ids (fingerprints s)) -> x < uid)
    /\ incl (fingerprints s) (fingerprints s')
    /\ incl ids (user_ids (fingerprints s')).
Proof.
  intros ids s'.
  exists (next_after (select_max_user_id (fingerprints s'))).
  destruct (commits_spec steps s) as (Hsorted & Hlow & Hincl & Hids).
  fold ids in Hsorted, Hlow, Hids. fold s' in Hsorted, Hlow, Hincl, Hids.
  split; [reflexivity|]. split; [exact Hsorted|].
  split; [now apply strongly_sorted_lt_nodup|].
  split; [|split; assumption].
  intros uid Hin x Hx. rewrite Forall_forall in Hlow.
  assert (Hle : next_after (select_max_user_id (fingerprints s)) <= uid).
  { apply Hlow. apply in_or_app. now left. }
  pose proof (next_after_above (fingerprints s) x Hx). lia.
Qed.

(** Three registrations on an empty store, the second of which fails at
    [commit()]: the ids committed are 1 and 3, and the next one is 4. *)
Example commits_around_a_failed_commit :
  let ok := mkEnv true clock true [] false AtOpenDevice in
  let locked := mkEnv false clock true [] true AtOpenDevice in
  let r :=
    commits [(ok, encoded templateA); (locked, encoded templateB);
             (ok, encoded templateC)] (app [] true [] []) in
  fst r = [1; 3]
  /\ user_ids (fingerprints (snd r)) = [1; 2; 3]
  /\ fst (get_next_user_id (snd r)) = Returned 4.
Proof. vm_compute. repeat split. Qed.

(** ** Registration *)

(** C1, as stated, fails.  With a store that refuses the write the merged
    template is in the index all the same and the table stays empty; with
    a store that accepts it, [DBAdd] is called before the [INSERT]. *)
Lemma index_before_insert_counterexample :
  let refused := start_register matching_zkfp2 (app [] false [] three_reads) in
  let accepted := start_register matching_zkfp2 (app [] true [] three_reads) in
  let rounds :=
    [EvAcquire (Some (sample templateA)); EvIdentify templateA 0 0;
     EvAcquire None;
     EvAcquire (Some (sample templateA)); EvIdentify templateA 0 0;
     EvAcquire (Some (sample templateA)); EvIdentify templateA 0 0;
     EvMerge [templateA; templateA; templateA] (Some templateA)] in
  fst refused = Returned tt
  /\ fingerprints (snd refused) = []
  /\ zk_index (snd refused) = [(1, templateA)]
  /\ trace (snd refused)
     = rounds ++ [EvDBAdd 1 templateA;
                  EvInsert 1 (encoded templateA) DatabaseError;
                  EvDialog (DlgRegistrationSuccess 1)]
  /\ trace (snd accepted)
     = rounds ++ [EvDBAdd 1 templateA;
                  EvInsert 1 (encoded templateA) Inserted;
                  EvDialog (DlgRegistrationSuccess 1)]
  /\ insert_precedes_add [] (trace (snd accepted)) = false.
Proof. vm_compute. repeat split. Qed.

(** C1, amended: in every [start_register] session whose merge succeeds,
    the merged template is added to the index first and the [INSERT] of
    its encoding is made right after, with the id [get_next_user_id]
    returned; the index keeps the addition whatever the status of the
    insert.  The table holds the new row when the insert was committed,
    and also when the statement was executed and [commit()] failed (the
    handler does not roll back); it is as before when the statement was
    refused or the id does not fit.  Before the merge the session made
    no call other than polls and identifications that found nobody. *)
Theorem registration_indexes_then_inserts
        (zkfp2 : ZKFP2) (s s1 : FingerprintScanner)
        (templates : list bytes) (regTemp : bytes) :
  register_rounds zkfp2 3 [] s = (Returned (Some templates), s1) ->
  fst (DBMerge zkfp2 templates) = Some regTemp ->
  regTemp <> [] ->
  let user_id := next_after (select_max_user_id (fingerprints s)) in
  let data := SqlText (Base64.decode_utf8 (Base64.b64encode regTemp)) in
  let row := mkRow user_id data (now s) in
  let st :=
    fst (insert (db_writable s) (fails_at_commit s) row (fingerprints s)) in
  let s' := snd (start_register zkfp2 s) in
  trace s'
  = trace s1
      ++ [EvMerge templates (Some regTemp);
          EvDBAdd user_id regTemp;
          EvInsert user_id data st]
      ++ match st with
         | IntTooLarge => []
         | _ => [EvDialog (DlgRegistrationSuccess user_id)]
         end
  /\ zk_index s' = zk_index s ++ [(user_id, regTemp)]
  /\ fingerprints s'
     = match st with
       | Inserted => fingerprints s ++ [row]
       | DatabaseError =>
           if fails_at_commit s then fingerprints s ++ [row]
           else fingerprints s
       | IntTooLarge => fingerprints s
       end
  /\ exists evs, trace s1 = trace s ++ evs /\ forallb quiet evs = true.
Proof.
  intros Hrounds Hmerge Hne user_id data row st s'.
  destruct regTemp as [|x b]; [contradiction|].
  destruct (register_rounds_spec _ _ _ _ _ _ Hrounds)
    as ((Hfp & Hix & Hw & Hnow & Hat) & evs & Htr & Hquiet).
  pose proof (start_register_merged zkfp2 s s1 templates x b Hrounds Hmerge)
    as Hrun.
  cbv zeta in Hrun. rewrite Hfp, Hw, Hnow, Hat in Hrun.
  fold user_id in Hrun. fold data in Hrun. fold row in Hrun.
  subst s'. rewrite Hrun. clear Hrun.
  pose proof (insert_allocated (db_writable s) (fails_at_commit s) data
                (now s) (fingerprints s)) as Hins.
  cbv zeta in Hins. fold user_id in Hins. fold row in Hins.
  subst st. rewrite Hins.
  destruct (fits_int64 user_id), (db_writable s), (fails_at_commit s);
    cbn [negb fst snd trace zk_index fingerprints log with_index
         with_fingerprints];
    rewrite ?Hix, <- ?app_assoc; repeat split; eauto.
Qed.

Lemma registration_indexes_then_inserts_witness :
  let s := app [] false [] three_reads in
  let s1 := snd (register_rounds matching_zkfp2 3 [] s) in
  trace (snd (start_register matching_zkfp2 s))
  = trace s1
      ++ [EvMerge [templateA; templateA; templateA] (Some templateA);
          EvDBAdd 1 templateA;
          EvInsert 1 (encoded templateA) DatabaseError]
      ++ [EvDialog (DlgRegistrationSuccess 1)]
  /\ zk_index (snd (start_register matching_zkfp2 s)) = [] ++ [(1, templateA)]
  /\ fingerprints (snd (start_register matching_zkfp2 s)) = []
  /\ exists evs, trace s1 = trace s ++ evs /\ forallb quiet evs = true.
Proof.
  apply (registration_indexes_then_inserts matching_zkfp2
           (app [] false [] three_reads)
           (snd (register_rounds matching_zkfp2 3 []
                   (app [] false [] three_reads)))
           [templateA; templateA; templateA] templateA).
  all: try (vm_compute; reflexivity).
  discriminate.
Defined.

(** The store calls of such a session are those of [allocate_and_save]:
    the table it leaves is the one [get_next_user_id] followed by
    [save_fingerprint_to_db] leaves. *)
Lemma registration_allocates_and_saves
      (zkfp2 : ZKFP2) (s s1 : FingerprintScanner)
      (templates : list bytes) (regTemp : bytes) :
  register_rounds zkfp2 3 [] s = (Returned (Some templates), s1) ->
  fst (DBMerge zkfp2 templates) = Some regTemp ->
  regTemp <> [] ->
  fingerprints (snd (start_register zkfp2 s))
  = fingerprints
      (snd (allocate_and_save
              (SqlText (Base64.decode_utf8 (Base64.b64encode regTemp))) s)).
Proof.
  intros Hrounds Hmerge Hne.
  destruct regTemp as [|x b]; [contradiction|].
  destruct (register_rounds_spec _ _ _ _ _ _ Hrounds)
    as ((Hfp1 & _ & Hw1 & Hnow1 & Hat1) & _).
  pose proof (start_register_merged zkfp2 s s1 templates x b Hrounds Hmerge)
    as Hrun.
  cbv zeta in Hrun. rewrite Hfp1, Hw1, Hnow1, Hat1 in Hrun. rewrite Hrun.
  rewrite allocate_and_save_spec. cbv zeta.
  now destruct (fst (insert _ _ _ _)).
Qed.

(** C4: when an identification of a [start_register] session answers a
    non-zero id, the session returns there and then: that identification
    and its dialog are the last calls of the session, the sample identified
    is the last one polled, everything before is polls and identifications
    that found nobody, so [DBMerge], [DBAdd] and the [INSERT] are not
    called, and the store and the index are as before. *)
Theorem duplicate_aborts_registration
        (zkfp2 : ZKFP2) (s : FingerprintScanner) (evs : list Event)
        (tmp : bytes) (fid score : Z) :
  trace (snd (start_register zkfp2 s)) = trace s ++ evs ->
  In (EvIdentify tmp fid score) evs ->
  fid <> 0 ->
  fst (start_register zkfp2 s) = Returned tt
  /\ (exists pre img,
        evs = pre ++ [EvAcquire (Some (tmp, img));
                      EvIdentify tmp fid score;
                      EvDialog (DlgFingerprintExists fid)]
        /\ forallb quiet pre = true)
  /\ forallb (fun e => negb (merges_or_writes e)) evs = true
  /\ same_world s (snd (start_register zkfp2 s)).
Proof.
  intros Htr Hin Hfid.
  destruct (register_rounds zkfp2 3 [] s) as [r s1] eqn:Hrounds.
  destruct (register_rounds_spec _ _ _ _ _ _ Hrounds)
    as (Hw & evs1 & Htr1 & Hcase).
  destruct r as [[templates|]| e |].
  - exfalso.
    destruct (start_register_after_rounds zkfp2 s s1 templates Hrounds)
      as (later & Hlater & Hnone).
    rewrite Hlater, Htr1, <- app_assoc in Htr.
    apply app_inv_head in Htr. subst evs.
    apply in_app_or in Hin. destruct Hin as [Hin|Hin].
    + apply Hfid. eapply quiet_identify; eassumption.
    + exact (Hnone _ _ _ Hin).
  - rewrite start_register_unfold, Hrounds in Htr |- *. cbn [fst snd] in *.
    rewrite Htr1 in Htr. apply app_inv_head in Htr. subst evs1.
    destruct Hcase as (pre & capture & fid' & score' & -> & Hfid' & Hpre).
    assert (Hlast : EvIdentify tmp fid score
                    = EvIdentify (fst capture) fid' score').
    { apply in_app_or in Hin. destruct Hin as [Hin|Hin].
      - exfalso. apply Hfid. eapply quiet_identify; eassumption.
      - cbn in Hin. destruct Hin as [H|[H|[H|[]]]];
          [discriminate | now symmetry | discriminate]. }
    inversion Hlast; subst tmp fid' score'.
    split; [reflexivity|]. split; [|split; [|exact Hw]].
    + exists pre, (snd capture). split; [|exact Hpre].
      now destruct capture.
    + rewrite forallb_app, (quiet_not_write _ Hpre). reflexivity.
  - destruct Hcase.
  - exfalso. rewrite start_register_unfold, Hrounds in Htr. cbn [snd] in Htr.
    rewrite Htr1 in Htr. apply app_inv_head in Htr. subst evs1.
    apply Hfid. eapply quiet_identify; eassumption.
Qed.

Lemma duplicate_aborts_registration_witness :
  let s := app [stored 1 templateA] true [(1, templateA)] three_reads in
  let evs :=
    [EvAcquire (Some (sample templateA)); EvIdentify templateA 1 100;
     EvDialog (DlgFingerprintExists 1)] in
  fst (start_register matching_zkfp2 s) = Returned tt
  /\ (exists pre img,
        evs = pre ++ [EvAcquire (Some (templateA, img));
                      EvIdentify templateA 1 100;
                      EvDialog (DlgFingerprintExists 1)]
        /\ forallb quiet pre = true)
  /\ forallb (fun e => negb (merges_or_writes e)) evs = true
  /\ same_world s (snd (start_register matching_zkfp2 s)).
Proof.
  apply (duplicate_aborts_registration matching_zkfp2
           (app [stored 1 templateA] true [(1, templateA)] three_reads)
           [EvAcquire (Some (sample templateA)); EvIdentify templateA 1 100;
            EvDialog (DlgFingerprintExists 1)]
           templateA 1 100).
  - reflexivity.
  - right. left. reflexivity.
  - discriminate.
Defined.

(** C5: in every [start_register] session whose merge of the three
    samples fails, the handler shows the error dialog and returns: no
    exception leaves it, so only the session ends.  Nothing is inserted
    and nothing is added to the index: the store and the index are as
    before, and the only calls of the session are polls, identifications
    that found nobody, the merge and the dialog. *)
Theorem start_register_survives_merge_failure
        (zkfp2 : ZKFP2) (s s1 : FingerprintScanner) (templates : list bytes) :
  register_rounds zkfp2 3 [] s = (Returned (Some templates), s1) ->
  truthy (fst (DBMerge zkfp2 templates)) = false ->
  fst (start_register zkfp2 s) = Returned tt
  /\ same_world s (snd (start_register zkfp2 s))
  /\ trace (snd (start_register zkfp2 s))
     = trace s1 ++ [EvMerge templates (fst (DBMerge zkfp2 templates));
                    EvDialog DlgMergeError]
  /\ exists evs, trace s1 = trace s ++ evs /\ forallb quiet evs = true.
Proof.
  intros Hrounds Hfalsy.
  rewrite (start_register_merge_failed zkfp2 s s1 templates Hrounds Hfalsy).
  destruct (register_rounds_spec _ _ _ _ _ _ Hrounds)
    as (Hw & evs & Htr & Hquiet).
  cbn [fst snd trace log]. rewrite <- app_assoc.
  split; [reflexivity|]. split; [|split; [reflexivity|]].
  - repeat split; apply Hw.
  - exists evs. split; assumption.
Qed.

Lemma start_register_survives_merge_failure_witness :
  let s := app [] true [] three_reads in
  let s1 := snd (register_rounds failing_merge_zkfp2 3 [] s) in
  fst (start_register failing_merge_zkfp2 s) = Returned tt
  /\ same_world s (snd (start_register failing_merge_zkfp2 s))
  /\ trace (snd (start_register failing_merge_zkfp2 s))
     = trace s1
         ++ [EvMerge [templateA; templateA; templateA]
               (fst (DBMerge failing_merge_zkfp2
                       [templateA; templateA; templateA]));
             EvDialog DlgMergeError]
  /\ exists evs, trace s1 = trace s ++ evs /\ forallb quiet evs = true.
Proof.
  apply (start_register_survives_merge_failure failing_merge_zkfp2
           (app [] true [] three_reads)
           (snd (register_rounds failing_merge_zkfp2 3 []
                   (app [] true [] three_reads)))
           [templateA; templateA; templateA]).
  all: vm_compute; reflexivity.
Defined.

(** [register_new_fingerprint], which no handler of the program calls,
    does not reach its [if regTemp is None] after a failed merge:
    [bytes(regTemp)] is evaluated first and [TypeError] leaves the
    method.  Nothing is inserted and nothing is added to the index. *)
Lemma register_new_fingerprint_merge_failure_raises
      (zkfp2 : ZKFP2) (s s1 : FingerprintScanner) (templates : list bytes) :
  capture_rounds 3 [] s = (Returned templates, s1) ->
  truthy (fst (DBMerge zkfp2 templates)) = false ->
  register_new_fingerprint zkfp2 s
  = (Raised TypeError,
     log (EvMerge templates (fst (DBMerge zkfp2 templates))) s1)
  /\ same_world s (snd (register_new_fingerprint zkfp2 s)).
Proof.
  intros Hrounds Hfalsy.
  destruct (capture_rounds_spec _ _ _ _ _ Hrounds) as (Hw & _).
  rewrite register_new_fingerprint_unfold, Hrounds. cbv zeta.
  destruct (fst (DBMerge zkfp2 templates)) as [[|x b]|];
    [|discriminate|]; (split; [reflexivity|]); cbn [snd];
    (eapply same_world_trans; [exact Hw|apply same_world_log]).
Qed.

(** ** Identification *)

(** C2: on a miss [start_identification] looks up the id that
    [get_next_user_id] returns, not the one before it.  That id is above
    every stored one, so the lookup finds no row for any store: the
    handler reports "Identification Failed" (or leaves with
    [OverflowError] when the id does not fit the store's integers) and
    the index is never healed. *)
Theorem identification_miss_never_heals
        (zkfp2 : ZKFP2) (s s1 : FingerprintScanner) (capture : Capture) :
  acquire_loop s = (Returned capture, s1) ->
  fst (DBIdentify zkfp2 (zk_index s) (fst capture)) = 0 ->
  let user_id := next_after (select_max_user_id (fingerprints s)) in
  let score := snd (DBIdentify zkfp2 (zk_index s) (fst capture)) in
  let s2 := log (EvIdentify (fst capture) 0 score) s1 in
  select_by_user_id user_id (fingerprints s) = None
  /\ start_identification zkfp2 s
     = (if fits_int64 user_id
        then (Returned tt, log (EvDialog DlgIdentificationFailed) s2)
        else (Raised OverflowError, s2))
  /\ zk_index (snd (start_identification zkfp2 s)) = zk_index s.
Proof.
  intros Hacq Hmiss user_id score s2.
  assert (Hnone : select_by_user_id user_id (fingerprints s) = None).
  { apply select_by_user_id_none. intros x Hx. now apply next_after_above. }
  unfold acquire_loop in Hacq.
  destruct (acquire_from_spec (polls s) s) as (evs & _ & _ & Hw & _).
  rewrite Hacq in Hw. cbn [snd] in Hw. destruct Hw as (Hfp & Hix & _ & _).
  assert (Hrun : start_identification zkfp2 s
                 = (if fits_int64 user_id
                    then (Returned tt, log (EvDialog DlgIdentificationFailed) s2)
                    else (Raised OverflowError, s2))).
  { rewrite start_identification_unfold, Hacq. cbv zeta.
    rewrite Hix, Hmiss. cbn [Z.eqb fingerprints log]. rewrite Hfp.
    fold user_id. rewrite Hnone. reflexivity. }
  split; [exact Hnone|]. split; [exact Hrun|].
  rewrite Hrun. subst s2. destruct (fits_int64 user_id); exact Hix.
Qed.

Lemma identification_miss_never_heals_witness :
  let s := app [stored 2 templateB] true [] [Some (sample templateB)] in
  let s2 :=
    log (EvIdentify templateB 0 0)
      (snd (acquire_loop s)) in
  select_by_user_id 3 [stored 2 templateB] = None
  /\ start_identification matching_zkfp2 s
     = (Returned tt, log (EvDialog DlgIdentificationFailed) s2)
  /\ zk_index (snd (start_identification matching_zkfp2 s)) = [].
Proof.
  exact (identification_miss_never_heals matching_zkfp2
           (app [stored 2 templateB] true [] [Some (sample templateB)])
           (snd (acquire_loop
                   (app [stored 2 templateB] true [] [Some (sample templateB)])))
           (sample templateB) eq_refl eq_refl).
Defined.

(** ** Loading the store into the index *)

(** C3, as stated, fails: of three records of which the second does not
    decode, only the first reaches the index; the load ends with the
    decoder's exception and the third record is never added. *)
Lemma corrupt_record_counterexample :
  let s :=
    app [stored 1 templateA; corrupt 2; stored 3 templateC] true [] [] in
  decodable (stored 1 templateA) = true
  /\ decodable (corrupt 2) = false
  /\ decodable (stored 3 templateC) = true
  /\ fst (load_fingerprints_from_db s) = Raised BinasciiError
  /\ zk_index (snd (load_fingerprints_from_db s)) = [(1, templateA)]
  /\ trace (snd (load_fingerprints_from_db s)) = [EvDBAdd 1 templateA].
Proof. vm_compute. repeat split. Qed.

(** C3, amended: when the store holds a record that does not decode,
    [load_fingerprints_from_db] does not skip it: an exception leaves the
    method and the store is as before.  When [fetchall()] can read every
    row, the decoded templates of the records before the first such
    record are added, in order, and the decoder's exception leaves the
    loop; that record and the records after it are not added.  When some
    row holds a template [fetchall()] cannot read, its
    [OperationalError] leaves the method before anything is added. *)
Theorem load_stops_at_first_corrupt_record
        (s : FingerprintScanner) (pre post : list Row) (bad : Row) (e : exn) :
  fingerprints s = pre ++ bad :: post ->
  forallb decodable pre = true ->
  Base64.b64decode (fingerprint_template bad) = Raise e ->
  let r := load_fingerprints_from_db s in
  fingerprints (snd r) = fingerprints s
  /\ if all_fetchable (fingerprints s)
     then
       fst r = Raised e
       /\ zk_index (snd r) = zk_index s ++ decoded_entries pre
       /\ trace (snd r) = trace s ++ add_events (decoded_entries pre)
       /\ List.length (decoded_entries pre) = List.length pre
     else
       fst r = Raised OperationalError
       /\ zk_index (snd r) = zk_index s
       /\ trace (snd r) = trace s.
Proof.
  intros Hrows Hpre Hbad r. subst r.
  unfold load_fingerprints_from_db, all_fetchable.
  destruct (forallb _ (fingerprints s)).
  - pose proof (load_rows_corrupt pre post bad e s Hpre Hbad) as Hload.
    rewrite <- Hrows in Hload. rewrite Hload.
    cbn [fst snd zk_index trace fingerprints added].
    repeat split. now apply decoded_entries_length.
  - cbn [fst snd]. repeat split.
Qed.

Lemma load_stops_at_first_corrupt_record_witness :
  let s :=
    app [stored 1 templateA; corrupt 2; stored 3 templateC] true [] [] in
  let r := load_fingerprints_from_db s in
  fingerprints (snd r) = fingerprints s
  /\ (fst r = Raised BinasciiError
      /\ zk_index (snd r) = zk_index s ++ decoded_entries [stored 1 templateA]
      /\ trace (snd r)
         = trace s ++ add_events (decoded_entries [stored 1 templateA])
      /\ List.length (decoded_entries [stored 1 templateA])
         = List.length [stored 1 templateA]).
Proof.
  apply (load_stops_at_first_corrupt_record
           (app [stored 1 templateA; corrupt 2; stored 3 templateC] true [] [])
           [stored 1 templateA] [stored 3 templateC] (corrupt 2)
           BinasciiError).
  all: vm_compute; reflexivity.
Defined.

(** A store whose second record holds a template that cannot be read:
    the load adds nothing, not even the first record. *)
Example load_of_an_unreadable_record :
  let s :=
    app [stored 1 templateA; unreadable 2; stored 3 templateC] true [] [] in
  all_fetchable (fingerprints s) = false
  /\ load_fingerprints_from_db s = (Raised OperationalError, s).
Proof. vm_compute. split; reflexivity. Qed.

(** ** Connecting the scanner *)



(** * Further properties of the code *)

Import Session.

(** ** The codec at its edges *)

Lemma a2b_loop_filter (data : bytes) :
  forall quad_pos leftchar pads bin_data,
    Base64.a2b_loop (filter (fun c => negb (skipped c)) data)
      quad_pos leftchar pads bin_data
    = Base64.a2b_loop data quad_pos leftchar pads bin_data.
Proof.
  induction data as [|c data IH]; intros quad_pos leftchar pads bin_data;
    [reflexivity|].
  cbn [filter]. destruct (skipped c) eqn:Hskip; cbn [negb].
  - unfold skipped in Hskip. apply andb_prop in Hskip.
    destruct Hskip as [Hpad Hout]. apply negb_true_iff in Hpad.
    cbn [Base64.a2b_loop]. rewrite Hpad, Hout. apply IH.
  - cbn [Base64.a2b_loop].
    destruct (Byte.eqb c Base64.BASE64_PAD).
    + destruct (2 <=? quad_pos)%N; [|apply IH].
      destruct (4 <=? quad_pos + (pads + 1))%N; [reflexivity|apply IH].
    + destruct (64 <=? Base64.table_a2b_base64 c)%N; [apply IH|].
      destruct quad_pos as [|[[p|p|]|[p|p|]|]]; apply IH.
Qed.

Lemma forallb_filter_keeps (A : Type) (f g : A -> bool) (l : list A) :
  forallb f l = true -> forallb f (filter g l) = true.
Proof.
  induction l as [|x l IH]; [reflexivity|].
  cbn [forallb filter]. intros H. apply andb_prop in H. destruct H as [Hx H].
  destruct (g x); [cbn [forallb]; rewrite Hx|]; auto.
Qed.

(** X1: [b64decode] passes over every character that is neither in the
    alphabet nor the pad, so an encoding with line breaks, blanks or other
    stray characters in it decodes like the encoding without them; for a
    TEXT value this holds as long as the text is ASCII. *)
Theorem decode_passes_over_stray_characters (data : bytes) :
  Base64.b64decode (SqlBlob data)
  = Base64.b64decode (SqlBlob (filter (fun c => negb (skipped c)) data))
  /\ (forallb Base64.is_ascii data = true ->
      Base64.b64decode (SqlText (string_of_list_byte data))
      = Base64.b64decode
          (SqlText (string_of_list_byte
                      (filter (fun c => negb (skipped c)) data)))).
Proof.
  split.
  - cbn [Base64.b64decode]. unfold Base64.a2b_base64.
    now rewrite a2b_loop_filter.
  - intros Hascii. cbn [Base64.b64decode].
    rewrite !list_byte_of_string_of_list_byte.
    rewrite Hascii, (forallb_filter_keeps _ _ _ _ Hascii).
    unfold Base64.a2b_base64. now rewrite a2b_loop_filter.
Qed.

Lemma b2a_in_alphabet_table :
  forall_below 64 (fun x => in_alphabet (Base64.b2a x)) = true.
Proof. vm_compute. reflexivity. Qed.

Lemma b2a_in_alphabet (x : N) : (x < 64)%N -> in_alphabet (Base64.b2a x) = true.
Proof.
  intros Hx.
  exact (forall_below_spec 64 _ b2a_in_alphabet_table x Hx).
Qed.

(** X2: the encoding of [n] bytes has [4 * ceil(n / 3)] characters, each
    one of the 64 of the alphabet or the pad. *)
Theorem encoding_length_and_alphabet (t : bytes) :
  List.length (Base64.b64encode t) = (4 * ((List.length t + 2) / 3))%nat
  /\ forallb in_alphabet (Base64.b64encode t) = true.
Proof.
  induction t as [| x | x y | x y z t IH] using list_ind3.
  - split; reflexivity.
  - split; [reflexivity|]. cbn [Base64.b64encode forallb].
    destruct (pair_facts x x) as (Ha0 & _).
    destruct (pair_facts x "000"%byte) as (_ & Ha1 & _).
    change (Byte.to_N "000"%byte) with 0%N in Ha1.
    rewrite (b2a_in_alphabet _ Ha0), (b2a_in_alphabet _ Ha1). reflexivity.
  - split; [reflexivity|]. cbn [Base64.b64encode forallb].
    destruct (pair_facts x y) as (Ha0 & Ha1 & _).
    destruct (pair_facts y "000"%byte) as (_ & _ & Hb2 & _).
    change (Byte.to_N "000"%byte) with 0%N in Hb2.
    rewrite (b2a_in_alphabet _ Ha0), (b2a_in_alphabet _ Ha1),
      (b2a_in_alphabet _ Hb2). reflexivity.
  - destruct IH as [IHlen IHabc]. split.
    + cbn [Base64.b64encode List.length]. rewrite IHlen.
      replace (S (S (S (List.length t))) + 2)%nat
        with (1 * 3 + (List.length t + 2))%nat by lia.
      rewrite Nat.div_add_l by lia. lia.
    + cbn [Base64.b64encode forallb].
      destruct (pair_facts x y) as (Ha0 & Ha1 & _).
      destruct (pair_facts y z) as (_ & _ & Hb2 & _).
      destruct (pair_facts z z) as (_ & _ & _ & Hc3 & _).
      rewrite (b2a_in_alphabet _ Ha0), (b2a_in_alphabet _ Ha1),
        (b2a_in_alphabet _ Hb2), (b2a_in_alphabet _ Hc3). exact IHabc.
Qed.

(** ** The polling loop *)

Lemma trace_iter_log (e : Event) (n : nat) (s : FingerprintScanner) :
  trace (Nat.iter n (log e) s) = trace s ++ repeat e n
  /\ same_world s (Nat.iter n (log e) s).
Proof.
  induction n as [|n [IHtr IHw]].
  - cbn. rewrite app_nil_r. split; [reflexivity|apply same_world_refl].
  - rewrite Nat.iter_succ. split.
    + cbn [trace log]. rewrite IHtr, <- app_assoc. f_equal.
      change (repeat e n ++ [e] = repeat e (S n)).
      clear. induction n as [|n IH]; [reflexivity|].
      simpl in *. now rewrite IH.
    + eapply same_world_trans; [exact IHw|apply same_world_log].
Qed.

Lemma acquire_from_empty_polls (n : nat) (tail : list (option Capture)) :
  forall s,
    acquire_from (repeat None n ++ tail) s
    = acquire_from tail (Nat.iter n (log (EvAcquire None)) s).
Proof.
  induction n as [|n IH]; intros s; [reflexivity|].
  rewrite Nat.iter_succ_r. rewrite <- IH. reflexivity.
Qed.

(** X3: the polling loop of the handlers passes over empty polls, one
    [AcquireFingerprint] call each, and returns the first capture; the
    polls after it are not consumed.  When no poll brings a capture the
    loop is still polling, having done nothing else. *)
Theorem acquire_loop_returns_first_capture
        (s : FingerprintScanner) (n : nat)
        (first : option (Capture * list (option Capture))) :
  polls s
  = repeat None n
      ++ match first with
         | Some (capture, rest) => Some capture :: rest
         | None => []
         end ->
  same_world s (snd (acquire_loop s))
  /\ match first with
     | Some (capture, rest) =>
         fst (acquire_loop s) = Returned capture
         /\ polls (snd (acquire_loop s)) = rest
         /\ trace (snd (acquire_loop s))
            = trace s ++ repeat (EvAcquire None) n
                ++ [EvAcquire (Some capture)]
     | None =>
         fst (acquire_loop s) = Polling
         /\ polls (snd (acquire_loop s)) = []
         /\ trace (snd (acquire_loop s))
            = trace s ++ repeat (EvAcquire None) n
     end.
Proof.
  intros Hpolls. unfold acquire_loop. rewrite Hpolls.
  rewrite acquire_from_empty_polls.
  destruct (trace_iter_log (EvAcquire None) n s) as [Htr Hw].
  destruct first as [[capture rest]|]; cbn [acquire_from fst snd].
  - split.
    + eapply same_world_trans; [exact Hw|]. unfold same_world. cbn. auto.
    + cbn [polls trace with_polls log]. rewrite Htr, <- app_assoc. auto.
  - split.
    + eapply same_world_trans; [exact Hw|]. apply same_world_with_polls.
    + cbn [polls trace with_polls]. auto.
Qed.

Lemma acquire_loop_returns_first_capture_witness :
  let s := app [] true [] three_reads in
  same_world s (snd (acquire_loop s))
  /\ fst (acquire_loop s) = Returned (sample templateA)
  /\ polls (snd (acquire_loop s))
     = [None; Some (sample templateA); Some (sample templateA)]
  /\ trace (snd (acquire_loop s))
     = trace s ++ repeat (EvAcquire None) 0
         ++ [EvAcquire (Some (sample templateA))].
Proof.
  exact (acquire_loop_returns_first_capture
           (app [] true [] three_reads) 0
           (Some (sample templateA,
                  [None; Some (sample templateA); Some (sample templateA)]))
           eq_refl).
Defined.

(** ** Identification *)

(** However [start_identification] ends, it ends in a state that differs
    from the initial one by polls, one identification at most and one
    dialog at most. *)
Lemma start_identification_cases (zkfp2 : ZKFP2) (s : FingerprintScanner) :
  exists s2 evs,
    same_world s s2
    /\ trace s2 = trace s ++ evs
    /\ forallb (fun e => negb (merges_or_writes e)) evs = true
    /\ (start_identification zkfp2 s = (Polling, s2)
        \/ start_identification zkfp2 s = (Raised OverflowError, s2)
        \/ exists d,
            start_identification zkfp2 s = (Returned tt, log (EvDialog d) s2)).
Proof.
  rewrite start_identification_unfold.
  destruct (acquire_from_spec (polls s) s) as (evs & Htr & Hacq & Hw & Hlast).
  pose proof (quiet_not_write _ (forallb_acquire_quiet _ Hacq)) as Hnw.
  destruct (acquire_from (polls s) s) as [[capture| e |] s1];
    cbn [fst snd] in *.
  - cbv zeta.
    set (r := DBIdentify zkfp2 (zk_index s1) (fst capture)).
    set (s2 := log (EvIdentify (fst capture) (fst r) (snd r)) s1).
    exists s2, (evs ++ [EvIdentify (fst capture) (fst r) (snd r)]).
    split; [eapply same_world_trans; [exact Hw|apply same_world_log]|].
    split; [subst s2; cbn [trace log]; rewrite Htr; now rewrite <- app_assoc|].
    split; [rewrite forallb_app, Hnw; reflexivity|].
    destruct (fst r =? 0).
    + destruct (fits_int64 _); [|now right; left].
      rewrite select_by_user_id_none
        by (intros x Hx; now apply next_after_above).
      right. right. now eexists.
    + right. right. now eexists.
  - destruct Hlast.
  - exists s1, evs. auto.
Qed.

(** X4: [start_identification] only reads.  Whatever the scanner answers
    and however the handler ends, the store and the index are as before,
    and the handler calls neither [DBMerge] nor [DBAdd] nor the
    [INSERT]. *)
Theorem identification_only_reads (zkfp2 : ZKFP2) (s : FingerprintScanner) :
  same_world s (snd (start_identification zkfp2 s))
  /\ (exists evs,
        trace (snd (start_identification zkfp2 s)) = trace s ++ evs
        /\ forallb (fun e => negb (merges_or_writes e)) evs = true).
Proof.
  destruct (start_identification_cases zkfp2 s)
    as (s2 & evs & Hw & Htr & Hnw & [Hrun|[Hrun|[d Hrun]]]);
    rewrite Hrun; cbn [fst snd].
  - split; [exact Hw|]. now exists evs.
  - split; [exact Hw|]. now exists evs.
  - split; [eapply same_world_trans; [exact Hw|apply same_world_log]|].
    exists (evs ++ [EvDialog d]).
    cbn [trace log]. rewrite Htr, <- app_assoc. split; [reflexivity|].
    rewrite forallb_app, Hnw. reflexivity.
Qed.

(** ** Saving under the allocated id *)

Lemma insert_allocated_id (at_commit : bool) (t : table) (data : sql_value)
      (ts : string) :
  fits_int64 (next_after (select_max_user_id t)) = true ->
  insert true at_commit (mkRow (next_after (select_max_user_id t)) data ts) t
  = (Inserted, t ++ [mkRow (next_after (select_max_user_id t)) data ts]).
Proof.
  intros Hfits.
  pose proof (insert_allocated true at_commit data ts t) as H.
  cbv zeta in H. rewrite H, Hfits. reflexivity.
Qed.

(** X5: the id that [get_next_user_id] returns is never a stored one, so
    [save_fingerprint_to_db] under that id cannot fail on the primary
    key: with a store that takes the write and an id that fits its
    integers the row is appended and the method returns. *)
Theorem save_under_allocated_id_succeeds
        (s : FingerprintScanner) (data : sql_value) :
  db_writable s = true ->
  fits_int64 (next_after (select_max_user_id (fingerprints s))) = true ->
  let user_id := next_after (select_max_user_id (fingerprints s)) in
  select_by_user_id user_id (fingerprints s) = None
  /\ save_fingerprint_to_db user_id data s
     = (Returned tt,
        log (EvInsert user_id data Inserted)
          (with_fingerprints
             (fingerprints s ++ [mkRow user_id data (now s)]) s)).
Proof.
  intros Hw Hfits user_id. split.
  - apply select_by_user_id_none. intros x Hx. now apply next_after_above.
  - rewrite save_fingerprint_to_db_spec. cbv zeta. fold user_id.
    rewrite Hw. subst user_id.
    rewrite (insert_allocated_id (fails_at_commit s) (fingerprints s) data
               (now s) Hfits).
    reflexivity.
Qed.

Lemma save_under_allocated_id_succeeds_witness :
  let s := app [stored 1 templateA] true [] [] in
  select_by_user_id 2 (fingerprints s) = None
  /\ save_fingerprint_to_db 2 (encoded templateB) s
     = (Returned tt,
        log (EvInsert 2 (encoded templateB) Inserted)
          (with_fingerprints
             (fingerprints s ++ [mkRow 2 (encoded templateB) (now s)]) s)).
Proof.
  apply (save_under_allocated_id_succeeds
           (app [stored 1 templateA] true [] []) (encoded templateB)).
  all: vm_compute; reflexivity.
Defined.

(** ** Connecting again *)

Lemma load_rows_result (rows : list Row) (s : FingerprintScanner) :
  load_rows rows s
  = (loop_outcome rows, added (loaded_upto_corrupt rows) s).
Proof.
  revert s. induction rows as [|row rows IH]; intros s.
  - cbn. now rewrite added_nil.
  - rewrite load_rows_cons. cbn [loop_outcome loaded_upto_corrupt].
    destruct (Base64.b64decode (fingerprint_template row)) as [t|e].
    + rewrite IH. now rewrite added_cons.
    + now rewrite added_nil.
Qed.

Lemma load_fingerprints_from_db_result (s : FingerprintScanner) :
  load_fingerprints_from_db s
  = (load_outcome (fingerprints s), added (loaded (fingerprints s)) s).
Proof.
  unfold load_fingerprints_from_db, load_outcome, loaded, all_fetchable.
  destruct (forallb _ (fingerprints s)).
  - apply load_rows_result.
  - now rewrite added_nil.
Qed.

Lemma connect_to_device_result (s : FingerprintScanner) :
  device_ready s = true ->
  connect_to_device s
  = (load_outcome (fingerprints s),
     added (loaded (fingerprints s))
       (log (EvDialog DlgConnectionSuccess)
          (with_connected true
             (log EvDBClear (log_all opening_calls (with_index [] s)))))).
Proof.
  intros Hready. rewrite (connect_to_device_ready s Hready).
  now rewrite load_fingerprints_from_db_result.
Qed.



(** ** What a registration merges and stores *)

Lemma sampled_app (evs evs' : list Event) :
  sampled (evs ++ evs') = sampled evs ++ sampled evs'.
Proof.
  induction evs as [|e evs IH]; [reflexivity|].
  destruct e; simpl; now rewrite <- ?IH.
Qed.

Lemma sampled_acquire (evs : list Event) :
  forallb is_acquire evs = true -> sampled evs = [].
Proof.
  induction evs as [|e evs IH]; [reflexivity|].
  cbn [forallb]. intros H. apply andb_prop in H. destruct H as [He H].
  destruct e; try discriminate. cbn [sampled]. now apply IH.
Qed.

(** The templates that leave the capture rounds are those given to
    [DBIdentify], in order, after the ones the rounds started with. *)
Lemma register_rounds_templates (zkfp2 : ZKFP2) (n : nat) :
  forall (templates ts : list bytes) (s s1 : FingerprintScanner),
    register_rounds zkfp2 n templates s = (Returned (Some ts), s1) ->
    exists evs,
      trace s1 = trace s ++ evs
      /\ ts = templates ++ sampled evs
      /\ List.length (sampled evs) = n.
Proof.
  induction n as [|n IH]; intros templates ts s s1 Hrun.
  - cbn in Hrun. inversion Hrun; subst. exists [].
    now rewrite !app_nil_r.
  - rewrite register_rounds_S in Hrun.
    destruct (acquire_from_spec (polls s) s) as (evs1 & Htr1 & Hacq1 & _ & _).
    destruct (acquire_from (polls s) s) as [[capture| e |] s0];
      cbn [fst snd] in *; try discriminate.
    cbv zeta in Hrun.
    set (r := DBIdentify zkfp2 (zk_index s0) (fst capture)) in *.
    destruct (fst r =? 0); [|discriminate].
    apply IH in Hrun. destruct Hrun as (evs2 & Htr2 & Hts & Hlen).
    exists (evs1 ++ EvIdentify (fst capture) (fst r) (snd r) :: evs2).
    rewrite sampled_app, (sampled_acquire _ Hacq1). cbn [List.app sampled].
    repeat split.
    + rewrite Htr2. cbn [trace log]. rewrite Htr1.
      now rewrite <- !app_assoc.
    + rewrite Hts. now rewrite <- app_assoc.
    + simpl. now rewrite Hlen.
Qed.

(** After the rounds: the merge, then only index, store and dialog
    calls. *)
Lemma start_register_merge_and_after
      (zkfp2 : ZKFP2) (s s1 : FingerprintScanner) (templates : list bytes) :
  register_rounds zkfp2 3 [] s = (Returned (Some templates), s1) ->
  exists rest,
    trace (snd (start_register zkfp2 s))
    = trace s1 ++ EvMerge templates (fst (DBMerge zkfp2 templates)) :: rest
    /\ forallb (fun e => match e with
                         | EvDBAdd _ _ | EvInsert _ _ _ | EvDialog _ => true
                         | _ => false
                         end) rest = true.
Proof.
  intros Hrounds.
  destruct (fst (DBMerge zkfp2 templates)) as [[|x b]|] eqn:Hmerge.
  - rewrite (start_register_merge_failed zkfp2 s s1 templates Hrounds)
      by now rewrite Hmerge.
    rewrite Hmerge. eexists. cbn [snd trace log]. rewrite <- app_assoc.
    split; reflexivity.
  - pose proof (start_register_merged zkfp2 s s1 templates x b Hrounds Hmerge)
      as Hrun.
    cbv zeta in Hrun. rewrite Hrun.
    destruct (fst (insert _ _ _ _));
      eexists; cbn [snd trace log with_index with_fingerprints];
      rewrite <- ?app_assoc; split; reflexivity.
  - rewrite (start_register_merge_failed zkfp2 s s1 templates Hrounds)
      by now rewrite Hmerge.
    rewrite Hmerge. eexists. cbn [snd trace log]. rewrite <- app_assoc.
    split; reflexivity.
Qed.

Lemma quiet_no_merge (evs : list Event) (ts : list bytes) (r : option bytes) :
  forallb quiet evs = true -> ~ In (EvMerge ts r) evs.
Proof.
  intros H Hin. rewrite forallb_forall in H. apply H in Hin. discriminate.
Qed.

(** X7: whenever [start_register] calls [DBMerge], it passes exactly three
    templates: the samples of the session that were given to [DBIdentify],
    in the order they were read. *)
Theorem registration_merges_the_three_samples
        (zkfp2 : ZKFP2) (s : FingerprintScanner) (evs : list Event)
        (ts : list bytes) (r : option bytes) :
  trace (snd (start_register zkfp2 s)) = trace s ++ evs ->
  In (EvMerge ts r) evs ->
  ts = sampled evs
  /\ List.length ts = 3%nat
  /\ r = fst (DBMerge zkfp2 ts).
Proof.
  intros Htr Hin.
  destruct (register_rounds zkfp2 3 [] s) as [r1 s1] eqn:Hrounds.
  destruct (register_rounds_spec _ _ _ _ _ _ Hrounds)
    as (_ & evs1 & Htr1 & Hcase).
  destruct r1 as [[templates|]| e |].
  - destruct (register_rounds_templates _ _ _ _ _ _ Hrounds)
      as (evs1' & Htr1' & Hts & Hlen).
    rewrite Htr1 in Htr1'. apply app_inv_head in Htr1'. subst evs1'.
    simpl in Hts.
    destruct (start_register_merge_and_after zkfp2 s s1 templates Hrounds)
      as (rest & Hlater & Hrest).
    rewrite Hlater, Htr1, <- app_assoc in Htr.
    apply app_inv_head in Htr. subst evs.
    assert (Hsr : sampled rest = []).
    { clear - Hrest. induction rest as [|e rest IH]; [reflexivity|].
      cbn [forallb] in Hrest. apply andb_prop in Hrest.
      destruct Hrest as [He Hrest]. destruct e; try discriminate;
        cbn [sampled]; now apply IH. }
    apply in_app_or in Hin. destruct Hin as [Hin|[Hin|Hin]].
    + exfalso. exact (quiet_no_merge _ _ _ Hcase Hin).
    + inversion Hin; subst ts r.
      rewrite sampled_app. cbn [sampled]. rewrite Hsr, app_nil_r.
      split; [exact Hts|]. split; [|reflexivity]. now rewrite Hts, Hlen.
    + exfalso. rewrite forallb_forall in Hrest. apply Hrest in Hin.
      discriminate.
  - exfalso. rewrite start_register_unfold, Hrounds in Htr. cbn [snd] in Htr.
    rewrite Htr1 in Htr. apply app_inv_head in Htr. subst evs1.
    destruct Hcase as (pre & capture & fid & score & -> & _ & Hpre).
    apply in_app_or in Hin. destruct Hin as [Hin|Hin].
    + exact (quiet_no_merge _ _ _ Hpre Hin).
    + cbn in Hin. destruct Hin as [H|[H|[H|[]]]]; discriminate.
  - destruct Hcase.
  - exfalso. rewrite start_register_unfold, Hrounds in Htr. cbn [snd] in Htr.
    rewrite Htr1 in Htr. apply app_inv_head in Htr. subst evs1.
    exact (quiet_no_merge _ _ _ Hcase Hin).
Qed.

Lemma registration_merges_the_three_samples_witness :
  let s := app [] true [] three_reads in
  let evs := trace (snd (start_register matching_zkfp2 s)) in
  [templateA; templateA; templateA] = sampled evs
  /\ List.length [templateA; templateA; templateA] = 3%nat
  /\ Some templateA
     = fst (DBMerge matching_zkfp2 [templateA; templateA; templateA]).
Proof.
  apply (registration_merges_the_three_samples matching_zkfp2
           (app [] true [] three_reads)
           (trace (snd (start_register matching_zkfp2
                          (app [] true [] three_reads))))
           [templateA; templateA; templateA] (Some templateA)).
  - reflexivity.
  - vm_compute. do 7 right. left. reflexivity.
Defined.

(** ** From a registration to the next connection *)

Lemma encoded_text_decodes (t : bytes) :
  Base64.b64decode (SqlText (Base64.decode_utf8 (Base64.b64encode t))) = Ok t.
Proof.
  unfold Base64.b64decode, Base64.decode_utf8.
  rewrite list_byte_of_string_of_list_byte, b64encode_is_ascii.
  apply a2b_base64_b64encode.
Qed.

Lemma loaded_app_row (t : table) (row : Row) (v : bytes) :
  load_outcome t = Returned tt ->
  Base64.b64decode (fingerprint_template row) = Ok v ->
  loaded (t ++ [row]) = loaded t ++ [(Store.user_id row, v)]
  /\ load_outcome (t ++ [row]) = Returned tt.
Proof.
  intros Hall Hrow. unfold loaded, load_outcome, all_fetchable in *.
  rewrite forallb_app. cbn [forallb].
  assert (Hfetch : fetchable (fingerprint_template row) = true).
  { destruct (fingerprint_template row); try reflexivity.
    cbn in Hrow. discriminate. }
  rewrite Hfetch.
  destruct (forallb _ t); [|discriminate]. cbn [andb].
  induction t as [|r t IH].
  - cbn. rewrite Hrow. auto.
  - simpl in Hall |- *.
    destruct (Base64.b64decode (fingerprint_template r)); [|discriminate].
    destruct (IH Hall) as [E1 E2]. rewrite E1, E2. auto.
Qed.

Lemma select_by_user_id_appended (t : table) (row : Row) :
  (forall x, In x (user_ids t) -> x < Store.user_id row) ->
  select_by_user_id (Store.user_id row) (t ++ [row]) = Some row.
Proof.
  intros Hlt. unfold select_by_user_id. induction t as [|r t IH].
  - cbn. now rewrite Z.eqb_refl.
  - cbn [List.app find]. destruct (Z.eqb_spec (Store.user_id r) (Store.user_id row))
      as [E|_].
    + specialize (Hlt (Store.user_id r) (or_introl eq_refl)). lia.
    + apply IH. intros x Hx. apply Hlt. now right.
Qed.

(** X8: a registration whose insert went through can be found again and
    survives a reconnection.  The new row is the one the lookup by its id
    returns, its text decodes to the merged template, and, when the rows
    that were there before all decode, the next successful connection
    ends normally with that template at the end of the index under the
    id it was registered with. *)
Theorem registered_template_survives_reconnect
        (zkfp2 : ZKFP2) (s s1 : FingerprintScanner)
        (templates : list bytes) (regTemp : bytes) (e : Env) :
  register_rounds zkfp2 3 [] s = (Returned (Some templates), s1) ->
  fst (DBMerge zkfp2 templates) = Some regTemp ->
  regTemp <> [] ->
  db_writable s = true ->
  fits_int64 (next_after (select_max_user_id (fingerprints s))) = true ->
  load_outcome (fingerprints s) = Returned tt ->
  env_ready e = true ->
  let user_id := next_after (select_max_user_id (fingerprints s)) in
  let data := SqlText (Base64.decode_utf8 (Base64.b64encode regTemp)) in
  let row := mkRow user_id data (now s) in
  let s' := snd (start_register zkfp2 s) in
  fingerprints s' = fingerprints s ++ [row]
  /\ select_by_user_id user_id (fingerprints s') = Some row
  /\ Base64.b64decode data = Ok regTemp
  /\ fst (connect_to_device (with_env e s')) = Returned tt
  /\ zk_index (snd (connect_to_device (with_env e s')))
     = loaded (fingerprints s) ++ [(user_id, regTemp)].
Proof.
  intros Hrounds Hmerge Hne Hw Hfits Hall Hready user_id data row s'.
  destruct regTemp as [|x b]; [contradiction|].
  destruct (register_rounds_spec _ _ _ _ _ _ Hrounds)
    as ((Hfp1 & _ & Hw1 & Hnow1 & Hat1) & _).
  pose proof (start_register_merged zkfp2 s s1 templates x b Hrounds Hmerge)
    as Hrun.
  cbv zeta in Hrun. rewrite Hfp1, Hw1, Hnow1, Hat1, Hw in Hrun.
  rewrite (insert_allocated_id (fails_at_commit s) (fingerprints s)
             (SqlText (Base64.decode_utf8 (Base64.b64encode (x :: b))))
             (now s) Hfits) in Hrun.
  cbn [fst snd] in Hrun.
  assert (Hfp : fingerprints s' = fingerprints s ++ [row]).
  { subst s'. rewrite Hrun. reflexivity. }
  assert (Hdec : Base64.b64decode data = Ok (x :: b))
    by apply encoded_text_decodes.
  destruct (loaded_app_row (fingerprints s) row (x :: b) Hall Hdec)
    as [Hloaded Hout].
  split; [exact Hfp|]. split.
  { rewrite Hfp. apply (select_by_user_id_appended (fingerprints s) row).
    intros y Hy. now apply next_after_above. }
  split; [exact Hdec|].
  rewrite (connect_to_device_result (with_env e s') Hready).
  cbn [fst snd fingerprints with_env zk_index added log log_all
           with_connected with_index List.app].
  rewrite Hfp, Hout, Hloaded. auto.
Qed.

Lemma registered_template_survives_reconnect_witness :
  let s := app [stored 1 templateB] true [] three_reads in
  let e := mkEnv true clock true [] false AtOpenDevice in
  let user_id := next_after (select_max_user_id (fingerprints s)) in
  let data := SqlText (Base64.decode_utf8 (Base64.b64encode templateA)) in
  let row := mkRow user_id data (now s) in
  let s' := snd (start_register matching_zkfp2 s) in
  fingerprints s' = fingerprints s ++ [row]
  /\ select_by_user_id user_id (fingerprints s') = Some row
  /\ Base64.b64decode data = Ok templateA
  /\ fst (connect_to_device (with_env e s')) = Returned tt
  /\ zk_index (snd (connect_to_device (with_env e s')))
     = loaded (fingerprints s) ++ [(user_id, templateA)].
Proof.
  apply (registered_template_survives_reconnect matching_zkfp2
           (app [stored 1 templateB] true [] three_reads)
           (snd (register_rounds matching_zkfp2 3 []
                   (app [stored 1 templateB] true [] three_reads)))
           [templateA; templateA; templateA] templateA
           (mkEnv true clock true [] false AtOpenDevice)).
  all: try (vm_compute; reflexivity).
  discriminate.
Defined.

(** ** The method [register_new_fingerprint] *)

(** X9: [register_new_fingerprint] enrols without asking the scanner who
    the finger belongs to.  With a merge that succeeds, all it did before
    the merge is poll; it then adds the merged template to the index under
    the id allocated before the first capture and inserts the base64
    [bytes] of the template under that id, which decode to the template
    again.  It returns unless the id does not fit the store's integers. *)
Theorem register_new_fingerprint_enrols_unchecked
        (zkfp2 : ZKFP2) (s s1 : FingerprintScanner)
        (templates : list bytes) (regTemp : bytes) :
  capture_rounds 3 [] s = (Returned templates, s1) ->
  fst (DBMerge zkfp2 templates) = Some regTemp ->
  regTemp <> [] ->
  let user_id := next_after (select_max_user_id (fingerprints s)) in
  let data := SqlBlob (Base64.b64encode regTemp) in
  let row := mkRow user_id data (now s) in
  let st :=
    fst (insert (db_writable s) (fails_at_commit s) row (fingerprints s)) in
  let s' := snd (register_new_fingerprint zkfp2 s) in
  (exists evs, trace s1 = trace s ++ evs /\ forallb is_acquire evs = true)
  /\ trace s'
     = trace s1 ++ [EvMerge templates (Some regTemp);
                    EvDBAdd user_id regTemp;
                    EvInsert user_id data st]
  /\ zk_index s' = zk_index s ++ [(user_id, regTemp)]
  /\ fingerprints s'
     = match st with
       | Inserted => fingerprints s ++ [row]
       | DatabaseError =>
           if fails_at_commit s then fingerprints s ++ [row]
           else fingerprints s
       | IntTooLarge => fingerprints s
       end
  /\ Base64.b64decode data = Ok regTemp
  /\ fst (register_new_fingerprint zkfp2 s)
     = match st with
       | IntTooLarge => Raised OverflowError
       | _ => Returned tt
       end.
Proof.
  intros Hrounds Hmerge Hne user_id data row st s'.
  destruct regTemp as [|x b]; [contradiction|].
  destruct (capture_rounds_spec _ _ _ _ _ Hrounds)
    as ((Hfp1 & Hix1 & Hw1 & Hnow1 & Hat1) & Hevs & _).
  split; [exact Hevs|].
  assert (Hrun : register_new_fingerprint zkfp2 s
                 = save_fingerprint_to_db user_id data
                     (log (EvDBAdd user_id (x :: b))
                        (with_index (zk_index s1 ++ [(user_id, x :: b)])
                           (log (EvMerge templates (Some (x :: b))) s1)))).
  { rewrite register_new_fingerprint_unfold, Hrounds. cbv zeta.
    rewrite Hmerge. reflexivity. }
  rewrite save_fingerprint_to_db_spec in Hrun. cbv zeta in Hrun.
  cbn [fingerprints db_writable fails_at_commit now log with_index] in Hrun.
  rewrite Hfp1, Hw1, Hnow1, Hat1 in Hrun. fold row in Hrun.
  subst s'. rewrite Hrun. clear Hrun.
  assert (Hdec : Base64.b64decode data = Ok (x :: b)).
  { cbn [Base64.b64decode data]. apply a2b_base64_b64encode. }
  pose proof (insert_allocated (db_writable s) (fails_at_commit s) data
                (now s) (fingerprints s)) as Hins.
  cbv zeta in Hins. fold user_id in Hins. fold row in Hins.
  subst st. rewrite Hins.
  destruct (fits_int64 user_id), (db_writable s), (fails_at_commit s);
    cbn [negb fst snd trace zk_index fingerprints log with_index
         with_fingerprints];
    rewrite Hix1, <- !app_assoc; repeat split; exact Hdec.
Qed.

Lemma register_new_fingerprint_enrols_unchecked_witness :
  let s := app [stored 1 templateA] true [(1, templateA)] three_reads in
  let s1 := snd (capture_rounds 3 [] s) in
  let data := SqlBlob (Base64.b64encode templateA) in
  let s' := snd (register_new_fingerprint matching_zkfp2 s) in
  (exists evs, trace s1 = trace s ++ evs /\ forallb is_acquire evs = true)
  /\ trace s'
     = trace s1 ++ [EvMerge [templateA; templateA; templateA] (Some templateA);
                    EvDBAdd 2 templateA;
                    EvInsert 2 data Inserted]
  /\ zk_index s' = [(1, templateA)] ++ [(2, templateA)]
  /\ fingerprints s' = [stored 1 templateA] ++ [mkRow 2 data clock]
  /\ Base64.b64decode data = Ok templateA
  /\ fst (register_new_fingerprint matching_zkfp2 s) = Returned tt.
Proof.
  apply (register_new_fingerprint_enrols_unchecked matching_zkfp2
           (app [stored 1 templateA] true [(1, templateA)] three_reads)
           (snd (capture_rounds 3 []
                   (app [stored 1 templateA] true [(1, templateA)]
                        three_reads)))
           [templateA; templateA; templateA] templateA).
  all: try (vm_compute; reflexivity).
  discriminate.
Defined.

(** ** Whole sessions *)


(** What [start_register] can do to the trace and to the table, however
    it ends. *)
Lemma start_register_effect (zkfp2 : ZKFP2) (s : FingerprintScanner) :
  (exists evs, trace (snd (start_register zkfp2 s)) = trace s ++ evs)
  /\ (fingerprints (snd (start_register zkfp2 s)) = fingerprints s
      \/ exists regTemp,
          fingerprints (snd (start_register zkfp2 s))
          = fingerprints s
              ++ [mkRow (next_after (select_max_user_id (fingerprints s)))
                    (SqlText (Base64.decode_utf8 (Base64.b64encode regTemp)))
                    (now s)]
          /\ fits_int64 (next_after (select_max_user_id (fingerprints s)))
             = true).
Proof.
  destruct (register_rounds zkfp2 3 [] s) as [r1 s1] eqn:Hrounds.
  destruct (register_rounds_spec _ _ _ _ _ _ Hrounds)
    as ((Hfp1 & _ & Hw1 & Hnow1 & Hat1) & evs1 & Htr1 & _).
  destruct r1 as [[templates|]| e |].
  - split.
    + destruct (start_register_after_rounds zkfp2 s s1 templates Hrounds)
        as (later & Hlater & _).
      exists (evs1 ++ later). now rewrite Hlater, Htr1, <- app_assoc.
    + destruct (fst (DBMerge zkfp2 templates)) as [[|x b]|] eqn:Hmerge.
      * left.
        rewrite (start_register_merge_failed zkfp2 s s1 templates Hrounds)
          by now rewrite Hmerge.
        exact Hfp1.
      * pose proof (start_register_merged zkfp2 s s1 templates x b
                      Hrounds Hmerge) as Hrun.
        cbv zeta in Hrun. rewrite Hfp1, Hw1, Hnow1, Hat1 in Hrun.
        rewrite Hrun. clear Hrun.
        pose proof (insert_allocated (db_writable s) (fails_at_commit s)
                      (SqlText
                         (Base64.decode_utf8 (Base64.b64encode (x :: b))))
                      (now s) (fingerprints s)) as Hins.
        cbv zeta in Hins. rewrite Hins.
        destruct (fits_int64 _) eqn:Hfits, (db_writable s),
          (fails_at_commit s);
          cbn [negb fst snd fingerprints log with_fingerprints]; auto;
          right; exists (x :: b); split; reflexivity.
      * left.
        rewrite (start_register_merge_failed zkfp2 s s1 templates Hrounds)
          by now rewrite Hmerge.
        exact Hfp1.
  - rewrite start_register_unfold, Hrounds. cbn [snd].
    split; [now exists evs1|now left].
  - rewrite start_register_unfold, Hrounds. cbn [snd].
    split; [now exists evs1|now left].
  - rewrite start_register_unfold, Hrounds. cbn [snd].
    split; [now exists evs1|now left].
Qed.

(** A connection whose initialisation fails: the calls that returned
    before the failure, then the error dialog; the store and
    [is_connected] are as before. *)
Lemma connect_to_device_not_ready (s : FingerprintScanner) :
  device_ready s = false ->
  let s' := snd (connect_to_device s) in
  fst (connect_to_device s) = Returned tt
  /\ fingerprints s' = fingerprints s
  /\ is_connected s' = is_connected s
  /\ trace s'
     = trace s ++ calls_before (init_fault s) ++ [EvDialog DlgConnectionError]
  /\ forallb (fun ev => negb (capture_or_index_call ev))
       (calls_before (init_fault s)) = true.
Proof.
  intros Hready.
  destruct s as [t w n r ix ps c tr ac stage]. cbn in Hready. subst r.
  destruct stage; cbn; rewrite <- ?app_assoc; repeat split.
Qed.

Lemma main_page_click_denied (zkfp2 : ZKFP2) (a : Action)
      (s : FingerprintScanner) :
  is_connected s = false ->
  a <> ClickConnect ->
  perform zkfp2 a s = (Returned tt, log (EvDialog DlgConnectionError) s).
Proof.
  intros Hoff Ha.
  destruct a; [contradiction| |];
    unfold perform, bind, main_page_click; rewrite Hoff; reflexivity.
Qed.

Lemma main_page_click_granted (zkfp2 : ZKFP2) (s : FingerprintScanner) :
  is_connected s = true ->
  perform zkfp2 ClickRegister s = start_register zkfp2 s
  /\ perform zkfp2 ClickIdentify s = start_identification zkfp2 s.
Proof.
  intros Hon. unfold perform, bind, main_page_click. rewrite Hon.
  cbn [route_change].
  split.
  - now destruct (start_register zkfp2 s) as [[[]| e |] s'].
  - now destruct (start_identification zkfp2 s) as [[[]| e |] s'].
Qed.


(** A click leaves the table alone or appends one row: the TEXT encoding
    of a template under the id [get_next_user_id] returns. *)
Lemma perform_table (zkfp2 : ZKFP2) (a : Action) (s : FingerprintScanner) :
  fingerprints (snd (perform zkfp2 a s)) = fingerprints s
  \/ exists regTemp,
      fingerprints (snd (perform zkfp2 a s))
      = fingerprints s
          ++ [mkRow (next_after (select_max_user_id (fingerprints s)))
                (SqlText (Base64.decode_utf8 (Base64.b64encode regTemp)))
                (now s)]
      /\ fits_int64 (next_after (select_max_user_id (fingerprints s))) = true.
Proof.
  destruct a.
  - left. unfold perform. destruct (device_ready s) eqn:Hready.
    + now rewrite (connect_to_device_result s Hready).
    + apply (connect_to_device_not_ready s Hready).
  - destruct (is_connected s) eqn:Hon.
    + destruct (main_page_click_granted zkfp2 s Hon) as [-> _].
      apply start_register_effect.
    + left. now rewrite (main_page_click_denied zkfp2 ClickRegister s Hon)
        by discriminate.
  - left. destruct (is_connected s) eqn:Hon.
    + destruct (main_page_click_granted zkfp2 s Hon) as [_ ->].
      destruct (start_identification_cases zkfp2 s)
        as (s2 & evs & Hw & _ & _ & [Hrun|[Hrun|[d Hrun]]]);
        rewrite Hrun; cbn [snd fingerprints log]; apply Hw.
    + now rewrite (main_page_click_denied zkfp2 ClickIdentify s Hon)
        by discriminate.
Qed.

(** What every click keeps, a run keeps. *)
Lemma run_invariant (zkfp2 : ZKFP2) (P : FingerprintScanner -> Prop) :
  (forall e a s, P s -> P (snd (perform zkfp2 a (with_env e s)))) ->
  forall script s, P s -> P (run zkfp2 script s).
Proof.
  intros Hstep script. induction script as [|[e a] script IH]; intros s Hs.
  - exact Hs.
  - cbn [run]. specialize (Hstep e a s Hs).
    destruct (perform zkfp2 a (with_env e s)) as [[[]| ex |] s'];
      cbn [snd] in Hstep; auto.
Qed.



Lemma ids_up_to_succ (n : nat) :
  ids_up_to (S n) = ids_up_to n ++ [Z.of_nat (S n)].
Proof. unfold ids_up_to. rewrite seq_S, map_app. reflexivity. Qed.

Lemma next_after_ids_up_to (t : table) :
  user_ids t = ids_up_to (List.length t) ->
  next_after (select_max_user_id t) = Z.of_nat (S (List.length t)).
Proof.
  intros Hids. pose proof (select_max_spec t) as Hmax.
  destruct (select_max_user_id t) as [m|].
  - assert (Hn : is_max (Z.of_nat (List.length t)) (user_ids t)).
    { rewrite Hids. unfold ids_up_to. split.
      - apply in_map. apply in_seq.
        destruct t as [|r t]; [destruct Hmax as [[] _]|]. cbn. lia.
      - intros x Hx. apply in_map_iff in Hx. destruct Hx as (k & <- & Hk).
        apply in_seq in Hk. lia. }
    rewrite (is_max_unique _ _ _ Hmax Hn). cbn [next_after].
    destruct (Z.eqb_spec (Z.of_nat (List.length t)) 0) as [E|_]; [|lia].
    destruct t as [|r t]; [destruct Hmax as [[] _]|]. cbn in E. lia.
  - subst t. reflexivity.
Qed.

(** X11: on a database that starts empty, the stored user ids are always
    1, 2, ..., n in this order, n the number of records, whatever was
    clicked and whether or not writes failed in between: ids leave no gap
    and none is skipped after a failed registration. *)
Theorem stored_ids_count_from_one
        (zkfp2 : ZKFP2) (e : Env) (script : list (Env * Action)) :
  user_ids (fingerprints (run zkfp2 script (initial e [])))
  = ids_up_to (List.length (fingerprints (run zkfp2 script (initial e [])))).
Proof.
  apply (run_invariant zkfp2
           (fun s => user_ids (fingerprints s)
                     = ids_up_to (List.length (fingerprints s)))).
  - intros e' a s Hids.
    destruct (perform_table zkfp2 a (with_env e' s))
      as [Hsame|(regTemp & Hgrown & _)];
      cbn [fingerprints with_env] in *.
    + now rewrite Hsame.
    + rewrite Hgrown. unfold user_ids in *.
      rewrite map_app, length_app. cbn [map List.length Store.user_id].
      rewrite Nat.add_1_r, ids_up_to_succ, Hids.
      now rewrite (next_after_ids_up_to (fingerprints s) Hids).
  - reflexivity.
Qed.

(** X12: the program never deletes or rewrites a record.  After any
    clicks the table is the table of start-up followed by the rows added
    since, and every added row decodes. *)
Theorem store_only_grows
        (zkfp2 : ZKFP2) (e : Env) (t : table) (script : list (Env * Action)) :
  exists added,
    fingerprints (run zkfp2 script (initial e t)) = t ++ added
    /\ forallb decodable added = true.
Proof.
  apply (run_invariant zkfp2
           (fun s => exists added,
                fingerprints s = t ++ added
                /\ forallb decodable added = true)).
  - intros e' a s (added & Hfp & Hdec).
    destruct (perform_table zkfp2 a (with_env e' s))
      as [Hsame|(regTemp & Hgrown & _)];
      cbn [fingerprints with_env] in *.
    + exists added. now rewrite Hsame.
    + eexists. rewrite Hgrown, Hfp, <- app_assoc. split; [reflexivity|].
      rewrite forallb_app, Hdec. cbn [forallb]. unfold decodable.
      cbn [fingerprint_template]. now rewrite encoded_text_decodes.
  - exists []. now rewrite app_nil_r.
Qed.




(** ** A failed insert and the next registration *)

(** The index and the table after a session of [start_register] whose
    merge succeeded, in terms of the state it started in. *)
Lemma start_register_merged_state
      (zkfp2 : ZKFP2) (s s1 : FingerprintScanner)
      (templates : list bytes) (regTemp : bytes) :
  register_rounds zkfp2 3 [] s = (Returned (Some templates), s1) ->
  fst (DBMerge zkfp2 templates) = Some regTemp ->
  regTemp <> [] ->
  zk_index (snd (start_register zkfp2 s))
  = zk_index s ++ [(next_after (select_max_user_id (fingerprints s)), regTemp)]
  /\ fingerprints (snd (start_register zkfp2 s))
     = snd (insert (db_writable s) (fails_at_commit s)
              (mkRow (next_after (select_max_user_id (fingerprints s)))
                 (SqlText (Base64.decode_utf8 (Base64.b64encode regTemp)))
                 (now s))
              (fingerprints s)).
Proof.
  intros Hrounds Hmerge Hne.
  destruct regTemp as [|x b]; [contradiction|].
  destruct (register_rounds_spec _ _ _ _ _ _ Hrounds)
    as ((Hfp1 & Hix1 & Hw1 & Hnow1 & Hat1) & _).
  pose proof (start_register_merged zkfp2 s s1 templates x b Hrounds Hmerge)
    as Hrun.
  cbv zeta in Hrun. rewrite Hfp1, Hix1, Hw1, Hnow1, Hat1 in Hrun.
  rewrite Hrun.
  destruct (fst (insert (db_writable s) _ _ (fingerprints s)));
    cbn [snd zk_index fingerprints log with_index with_fingerprints]; auto.
Qed.

(** X14: the id given to the registration that follows one whose write
    failed depends on where the write failed.  When the [INSERT]
    statement was refused, the table is unchanged and the next
    registration is given the same user id: the index then holds both
    merged templates under that one id.  When the statement was executed
    and [commit()] failed, the row stays in the open transaction and the
    next registration is given the next id. *)
Theorem id_after_a_failed_insert
        (zkfp2 : ZKFP2) (s s1 s2 : FingerprintScanner) (e : Env)
        (templates templates' : list bytes) (regTemp regTemp' : bytes) :
  register_rounds zkfp2 3 [] s = (Returned (Some templates), s1) ->
  fst (DBMerge zkfp2 templates) = Some regTemp ->
  regTemp <> [] ->
  db_writable s = false ->
  register_rounds zkfp2 3 [] (with_env e (snd (start_register zkfp2 s)))
  = (Returned (Some templates'), s2) ->
  fst (DBMerge zkfp2 templates') = Some regTemp' ->
  regTemp' <> [] ->
  let user_id := next_after (select_max_user_id (fingerprints s)) in
  let data := SqlText (Base64.decode_utf8 (Base64.b64encode regTemp)) in
  let executed := fails_at_commit s && fits_int64 user_id in
  let first := snd (start_register zkfp2 s) in
  let second := snd (start_register zkfp2 (with_env e first)) in
  fingerprints first
  = (if executed then fingerprints s ++ [mkRow user_id data (now s)]
     else fingerprints s)
  /\ zk_index first = zk_index s ++ [(user_id, regTemp)]
  /\ zk_index second
     = zk_index s
         ++ [(user_id, regTemp);
             (if executed then user_id + 1 else user_id, regTemp')].
Proof.
  intros Hrounds Hmerge Hne Hoff Hrounds' Hmerge' Hne'
         user_id data executed first second.
  destruct (start_register_merged_state zkfp2 s s1 templates regTemp
              Hrounds Hmerge Hne) as [Hix Hfp].
  assert (Htable : fingerprints first
                   = if executed
                     then fingerprints s ++ [mkRow user_id data (now s)]
                     else fingerprints s).
  { subst first. rewrite Hfp, Hoff.
    pose proof (insert_allocated false (fails_at_commit s) data (now s)
                  (fingerprints s)) as Hins.
    cbv zeta in Hins. fold user_id in Hins. fold data. fold user_id.
    rewrite Hins. subst executed.
    now destruct (fits_int64 user_id), (fails_at_commit s). }
  destruct (start_register_merged_state zkfp2 (with_env e first) s2
              templates' regTemp' Hrounds' Hmerge' Hne') as [Hix' _].
  cbn [zk_index fingerprints with_env] in Hix'.
  split; [exact Htable|]. split; [exact Hix|].
  subst second. rewrite Hix', Htable. subst first. rewrite Hix.
  rewrite <- app_assoc. cbn [List.app]. do 3 f_equal.
  destruct executed; [|reflexivity].
  f_equal. apply (next_after_insert (fingerprints s) data (now s)).
Qed.

Lemma id_after_a_failed_insert_witness :
  let s := app [stored 1 templateA] false [(1, templateA)]
             (reads_of templateC) in
  let e := mkEnv true clock true (reads_of templateB) false AtOpenDevice in
  let user_id := next_after (select_max_user_id (fingerprints s)) in
  let first := snd (start_register matching_zkfp2 s) in
  let second := snd (start_register matching_zkfp2 (with_env e first)) in
  fingerprints first = fingerprints s
  /\ zk_index first = zk_index s ++ [(user_id, templateC)]
  /\ zk_index second
     = zk_index s ++ [(user_id, templateC); (user_id, templateB)].
Proof.
  apply (id_after_a_failed_insert matching_zkfp2
           (app [stored 1 templateA] false [(1, templateA)]
                (reads_of templateC))
           (snd (register_rounds matching_zkfp2 3 []
                   (app [stored 1 templateA] false [(1, templateA)]
                        (reads_of templateC))))
           (snd (register_rounds matching_zkfp2 3 []
                   (with_env
                      (mkEnv true clock true (reads_of templateB) false
                         AtOpenDevice)
                      (snd (start_register matching_zkfp2
                              (app [stored 1 templateA] false
                                   [(1, templateA)]
                                   (reads_of templateC)))))))
           (mkEnv true clock true (reads_of templateB) false AtOpenDevice)
           [templateC; templateC; templateC]
           [templateB; templateB; templateB]
           templateC templateB).
  all: try (vm_compute; reflexivity).
  all: discriminate.
Defined.

(** The same two registrations when the first write fails at
    [commit()]: the row with id 2 stays in the table and the second
    registration is given id 3. *)
Example id_after_a_failed_commit :
  let locked := mkEnv false clock true (reads_of templateC) true AtDBClear in
  let e := mkEnv true clock true (reads_of templateB) false AtOpenDevice in
  let s := with_env locked (app [stored 1 templateA] true [(1, templateA)] []) in
  let first := snd (start_register matching_zkfp2 s) in
  let second := snd (start_register matching_zkfp2 (with_env e first)) in
  user_ids (fingerprints first) = [1; 2]
  /\ zk_index second = [(1, templateA); (2, templateC); (3, templateB)]
  /\ user_ids (fingerprints second) = [1; 2; 3].
Proof. vm_compute. repeat split. Qed.
